(** * native-tests.py: the test-binary orchestration script

    A shallow embedding of [script/native-tests.py] (classes [TestsList] and
    [TestBinary]) and the properties of its configuration loading, argument
    construction and exit-code aggregation.

    The script is Python 2 ([print] statement at line 68, [basestring] at
    line 138, [data_item.keys()[0]] at line 147), so the built-in [dict] is
    the Python 2 one: [keys()] returns a fresh list in hash-table order.

    Modelled: [TestsList] (loading of the parsed configuration, [get_names],
    [run], [run_only], [run_all], [__run]) and [TestBinary] (the argument
    list and the launch).  The file system, the YAML parser and the child
    processes are parameters.  [parse_args] and [main] are not modelled. *)

From Stdlib Require Import NArith ZArith Lia Ascii String List Permutation.
From stdpp Require Import base option list strings.

(** * Python 2 dictionaries keyed by (byte) strings *)
Module PyDict.

(** ** Contents

    The contents of a dict are kept as an association list with pairwise
    distinct keys, in order of first insertion.  The program never deletes a
    key. *)
Definition dict (V : Type) : Type := list (string * V).

Definition empty {V : Type} : dict V := [].

(** [d[k] = v]: replaces the value of an existing key, or adds the key. *)
Fixpoint setitem {V : Type} (k : string) (v : V) (d : dict V) : dict V :=
  match d with
  | [] => [(k, v)]
  | (k', v') :: d' =>
      if String.eqb k k' then (k', v) :: d' else (k', v') :: setitem k v d'
  end.

(** [d[k]], [None] standing for [KeyError]. *)
Fixpoint getitem {V : Type} (k : string) (d : dict V) : option V :=
  match d with
  | [] => None
  | (k', v') :: d' => if String.eqb k k' then Some v' else getitem k d'
  end.

(** [k in d]. *)
Definition contains {V : Type} (k : string) (d : dict V) : bool :=
  match getitem k d with Some _ => true | None => false end.

Definition len {V : Type} (d : dict V) : nat := length d.

(** ** Iteration order

    CPython 2.7 iterates a dict in the order of the slots of its open
    addressing hash table.  With no deletions, and since overwriting a key
    leaves its slot alone, the table is determined by the sequence of first
    insertions; only the keys matter for the order.

    [string_hash] is [string_hash] of Objects/stringobject.c on a build with
    64-bit [long] and hash randomisation off (the default of Python 2.7):
    a multiplicative hash with wrap-around, the length mixed in, and -1
    (all ones) replaced by -2.  It is kept as the unsigned 64-bit pattern. *)
Definition wrap64 (x : N) : N := (x mod 2 ^ 64)%N.

Definition string_hash (s : string) : N :=
  match s with
  | EmptyString => 0%N
  | String c _ =>
      let x0 := N.shiftl (N_of_ascii c) 7 in
      let x1 := fold_left (fun x ch => N.lxor (wrap64 (1000003 * x)) (N_of_ascii ch))
                          (list_ascii_of_string s) x0 in
      let x2 := N.lxor x1 (N.of_nat (String.length s)) in
      if (x2 =? 2 ^ 64 - 1)%N then (2 ^ 64 - 2)%N else x2
  end.

Definition PyDict_MINSIZE : nat := 8.
Definition PERTURB_SHIFT : N := 5.

(** A table of [ma_mask + 1] slots, each empty or holding an active key. *)
Abbreviation table := (list (option string)).

(** The active keys in slot order: what iteration yields. *)
Definition active (t : table) : list string := omap id t.

(** The probe of [insertdict_clean] (Objects/dictobject.c): start at
    [hash & mask]; while the slot is taken, go to
    [i = (i << 2) + i + perturb + 1] and shift [perturb] right by
    [PERTURB_SHIFT].  The slot index is kept reduced modulo the table size,
    which gives the same slots as [i & mask] because the size is a power of
    two dividing the word size.  [fuel] bounds the number of probes. *)
Fixpoint lookdict (fuel : nat) (t : table) (i : nat) (perturb : N) : option nat :=
  match fuel with
  | O => None
  | S fuel' =>
      match t !! i with
      | Some None => Some i
      | _ =>
          lookdict fuel' t
            (N.to_nat ((5 * N.of_nat i + perturb + 1) mod N.of_nat (length t))%N)
            (N.shiftr perturb PERTURB_SHIFT)
      end
  end.

(** Enough probes for any table with a free slot (see [lookdict_finds]):
    [perturb] is zero after as many shifts as the hash has bits, and from
    then on the probe walks a full cycle through the slots. *)
Definition probe_fuel (t : table) (h : N) : nat := S (N.size_nat h) + length t.

(** [insertdict_clean]: put a key that is not in the table into the first
    free slot of its probe sequence. *)
Definition insertdict_clean (t : table) (key : string) : table :=
  let h := string_hash key in
  match lookdict (probe_fuel t h) t (N.to_nat (h mod N.of_nat (length t))%N) h with
  | Some i => <[i := Some key]> t
  | None => t
  end.

(** The table size [dictresize] picks: the first power of two, from
    [PyDict_MINSIZE] on, that is greater than [minused]. *)
Definition newsize (minused : nat) : nat :=
  Nat.max PyDict_MINSIZE (2 ^ S (Nat.log2 minused)).

(** [dictresize]: a fresh table, the active keys re-inserted in slot order. *)
Definition dictresize (t : table) (minused : nat) : table :=
  fold_left insertdict_clean (active t) (replicate (newsize minused) None).

(** [PyDict_SetItem] for a key that is not yet in the dict: insert, then
    resize when the table is at least two thirds full. *)
Definition insertdict (t : table) (key : string) : table :=
  let t' := insertdict_clean t key in
  let used := length (active t') in
  if (2 * length t' <=? 3 * used)%nat
  then dictresize t' ((if (50000 <? N.of_nat used)%N then 2 else 4) * used)
  else t'.

(** The iteration order of a dict whose keys were first inserted in the
    order [ks]. *)
Definition slot_order (ks : list string) : list string :=
  active (fold_left insertdict ks (replicate PyDict_MINSIZE None)).

(** [d.keys()]. *)
Definition keys {V : Type} (d : dict V) : list string := slot_order (map fst d).

End PyDict.

(** * Python values, exceptions and the built-ins the script uses *)

Inductive exn : Type :=
| AttributeError
| KeyError
| IndexError
| TypeError
| AssertionError
| OSError
| Exception_ (msg : string).

Inductive result (A : Type) : Type :=
| Ok (a : A)
| Raise (e : exn).
Arguments Ok {A} a.
Arguments Raise {A} e.

#[global] Instance result_ret : MRet result := fun A a => Ok a.
#[global] Instance result_bind : MBind result := fun A B f m =>
  match m with
  | Ok a => f a
  | Raise e => Raise e
  end.

(** What [yaml.load] returns for the documents considered, and what the
    script stores: [None], booleans, integers, strings, lists and dicts with
    string keys.  A dict object is given by its items in iteration order
    (that of [keys()] and of [for]): for a dict that [yaml.load] built,
    whatever order the parser and the hash table gave it; for a dict that
    the script builds, the order that [py_dict] computes. *)
#[local] Set Warnings "-register-all".
Inductive value : Type :=
| YNull
| YBool (b : bool)
| YInt (z : Z)
| YStr (s : string)
| YSeq (l : list value)
| YMap (items : list (string * value)).

(** The dict object with the contents [d]. *)
Definition py_dict (d : PyDict.dict value) : value :=
  YMap (omap (fun k => pair k <$> PyDict.getitem k d) (PyDict.keys d)).

(** [obj.keys()] of a dict object. *)
Definition py_keys (items : list (string * value)) : list string := map fst items.

(** The one-character strings of a string. *)
Definition chars (s : string) : list string :=
  map (fun c => String c EmptyString) (list_ascii_of_string s).

(** [needle in s] for strings. *)
Fixpoint is_substring (needle s : string) : bool :=
  String.prefix needle s ||
  match s with
  | EmptyString => false
  | String _ s' => is_substring needle s'
  end.

(** Iteration, as by [for x in obj]. *)
Definition py_iter (obj : value) : result (list value) :=
  match obj with
  | YSeq l => Ok l
  | YStr s => Ok (map YStr (chars s))
  | YMap items => Ok (map YStr (py_keys items))
  | YNull | YBool _ | YInt _ => Raise TypeError
  end.

(** [len(obj)]. *)
Definition py_len (obj : value) : result nat :=
  match obj with
  | YSeq l => Ok (length l)
  | YStr s => Ok (String.length s)
  | YMap items => Ok (length items)
  | YNull | YBool _ | YInt _ => Raise TypeError
  end.

(** [obj[key]] for a string key. *)
Definition py_getitem (obj : value) (key : string) : result value :=
  match obj with
  | YMap items =>
      match PyDict.getitem key items with
      | Some v => Ok v
      | None => Raise KeyError
      end
  | _ => Raise TypeError
  end.

(** [key in obj] for a string key. *)
Definition py_in (key : string) (obj : value) : result bool :=
  match obj with
  | YMap items => Ok (PyDict.contains key items)
  | YSeq l =>
      Ok (existsb (fun y => match y with YStr s => String.eqb s key | _ => false end) l)
  | YStr s => Ok (is_substring key s)
  | YNull | YBool _ | YInt _ => Raise TypeError
  end.

(** [obj.name = v].  Instances of the built-in types ([dict] among them) have
    no instance dictionary: the assignment raises [AttributeError]. *)
Definition py_setattr (obj : value) (name : string) (v : value) : result value :=
  Raise AttributeError.

(** [sep.join(obj)]: the items must be strings. *)
Definition py_join (sep : string) (obj : value) : result string :=
  items ← py_iter obj;
  strs ← mapM (M := result) (fun y => match y with YStr s => Ok s | _ => Raise TypeError end) items;
  Ok (String.concat sep strs).

(** [posixpath.join(a, b)]. *)
Fixpoint endswith_slash (s : string) : bool :=
  match s with
  | EmptyString => false
  | String c EmptyString => Ascii.eqb c "/"
  | String _ s' => endswith_slash s'
  end.

Definition os_path_join (a b : string) : string :=
  if String.prefix "/" b then b
  else if String.eqb a "" || endswith_slash a then a +:+ b
  else a +:+ "/" +:+ b.

(** * Child processes and the state the methods run in *)

(** Where the child's standard output goes: the orchestrator's own
    ([stdout=None] of [subprocess.call]) or the null device. *)
Inductive stdout_target : Type :=
| Inherit
| DevNull.

(** One [subprocess.call(args, stdout=stdout)]. *)
Record process : Type := Process {
  args : list string;
  stdout : stdout_target
}.

(** The state: the object the methods are called on ([self]), which a method
    could assign to, and the child processes launched so far, oldest first. *)
Record world (S : Type) : Type := World {
  self : S;
  launched : list process
}.
Arguments World {S} self launched.
Arguments self {S} w.
Arguments launched {S} w.

(** A method body: from a state to a value or an exception, and the state
    it leaves. *)
Definition M (S A : Type) : Type := world S → result A * world S.

#[global] Instance M_ret {S} : MRet (M S) := fun A a w => (Ok a, w).
#[global] Instance M_bind {S} : MBind (M S) := fun A B f m w =>
  match m w with
  | (Ok a, w') => f a w'
  | (Raise e, w') => (Raise e, w')
  end.

Definition raise {S A} (e : exn) : M S A := fun w => (Raise e, w).

Definition lift {S A} (r : result A) : M S A := fun w => (r, w).

Definition get_self {S} : M S S := fun w => (Ok (self w), w).

(** An assignment to the object.  No method of the script makes one. *)
Definition set_self {S} (s : S) : M S () := fun w => (Ok (), World s (launched w)).

(** The operating system as seen through [subprocess.call]: given the
    processes launched before, a launch yields the child's exit code, or
    raises (no such file, not executable). *)
Definition launcher : Type := list process → process → result Z.

(** [subprocess.call]: the launch is recorded, whatever its outcome. *)
Definition subprocess_call {S} (os : launcher) (p : process) : M S Z :=
  fun w => (os (launched w) p, World (self w) (launched w ++ [p])).

(** * class TestBinary *)
Module TestBinary.

Record t : Type := Build {
  binary_path : string;
  output_format : string
}.

Definition __init__ (binary_path : string) : t :=
  {| binary_path := binary_path;
     (* Is only used when writing to a file. *)
     output_format := "xml" |}.

(** [run] takes [excluded_tests] as any value: [None], or what [len] and
    [join] accept. *)
Definition __format_excluded_tests (excluded_tests : value) : result string :=
  joined ← py_join ":" excluded_tests;
  Ok ("-" +:+ joined).

Section Run.
Context {S : Type} (os : launcher).

Definition run (self : t) (excluded_tests : value) (output_file_path : option string)
  : M S Z :=
  gtest_filter ←
    match excluded_tests with
    | YNull => mret ""
    | _ =>
        n ← lift (py_len excluded_tests);
        if (0 <? n)%nat then
          excluded_tests_string ← lift (__format_excluded_tests excluded_tests);
          mret ("--gtest_filter=" +:+ excluded_tests_string)
        else mret ""
    end;
  let gtest_output :=
    match output_file_path with
    | Some path => "--gtest_output=" +:+ output_format self +:+ ":" +:+ path
    | None => ""
    end in
  let args := [binary_path self; gtest_filter; gtest_output] in
  (* Suppress stdout if we're writing results to a file. *)
  let stdout :=
    match output_file_path with
    | Some _ => DevNull
    | None => Inherit
    end in
  subprocess_call os (Process args stdout).

End Run.
End TestBinary.

(** * class TestsList *)
Module TestsList.

(** [tests_dir] is a string: [main] reaches [run] and [run_all] only with
    [--tests-dir] given (lines 38-39). *)
Record t : Type := Build {
  config_path : string;
  tests_dir : string;
  (* A dict with binary names (e.g. 'base_unittests') as keys
     and various test data as values of dict type. *)
  tests : PyDict.dict value
}.

(** Treat a string as {'string_value': None}.  Anything else than a dict or
    a string fails the [assert]. *)
Definition __expand_shorthand (data : value) : result value :=
  match data with
  | YMap _ => Ok data
  | YStr s => Ok (py_dict (PyDict.setitem s YNull PyDict.empty))
  | _ => Raise AssertionError
  end.

(** Lines 144-162.  [test_data] is a dict, and line 157 assigns an attribute
    of it.  The last case is not reached: [__expand_shorthand] returns a
    dict. *)
Definition __get_test_data (data_item : value) : result (string * value) :=
  data_item ← __expand_shorthand data_item;
  match data_item with
  | YMap items =>
      match py_keys items with
      | [] => Raise IndexError
      | binary_name :: _ =>
          let test_data :=
            py_dict (PyDict.setitem "platforms" YNull
                       (PyDict.setitem "excluded_tests" YNull PyDict.empty)) in
          configs ← py_getitem data_item binary_name;
          match configs with
          | YNull => Ok (binary_name, test_data)
          | _ =>
              (* List of excluded tests. *)
              has_to_fix ← py_in "to_fix" configs;
              if has_to_fix : bool then
                to_fix ← py_getitem configs "to_fix";
                test_data ← py_setattr test_data "excluded_tests" to_fix;
                Ok (binary_name, test_data)
              else Ok (binary_name, test_data)
          end
      end
  | _ => Raise AttributeError
  end.

(** The loop of [__get_tests_list] over the entries. *)
Fixpoint fill_tests_list (items : list value) (tests_list : PyDict.dict value)
  : result (PyDict.dict value) :=
  match items with
  | [] => Ok tests_list
  | data_item :: rest =>
      '(binary_name, test_data) ← __get_test_data data_item;
      fill_tests_list rest (PyDict.setitem binary_name test_data tests_list)
  end.

Definition __get_output_path (binary_name : string) (output_dir : option string)
  : option string :=
  match output_dir with
  | None => None
  | Some dir => Some (os_path_join dir ("results_" +:+ binary_name +:+ ".xml"))
  end.

Section Load.
(** [__get_config_data]: the file at a path, parsed by [yaml.load]. *)
Variable __get_config_data : string → result value.

Definition __get_tests_list (config_path : string) : result (PyDict.dict value) :=
  config_data ← __get_config_data config_path;
  entries ← py_getitem config_data "tests";
  items ← py_iter entries;
  fill_tests_list items PyDict.empty.

Definition __init__ (config_path tests_dir : string) : result t :=
  tests ← __get_tests_list config_path;
  Ok {| config_path := config_path; tests_dir := tests_dir; tests := tests |}.

End Load.

Section Methods.
Variable os : launcher.

Definition __len__ : M t nat :=
  self ← get_self; mret (PyDict.len (tests self)).

Definition get_names : M t (list string) :=
  self ← get_self; mret (PyDict.keys (tests self)).

Definition __run (binary_name : string) (output_dir : option string) : M t Z :=
  self ← get_self;
  let binary_path := os_path_join (tests_dir self) binary_name in
  let test_binary := TestBinary.__init__ binary_path in
  test_data ← lift (match PyDict.getitem binary_name (tests self) with
                    | Some v => Ok v
                    | None => Raise KeyError
                    end);
  excluded_tests ← lift (py_getitem test_data "excluded_tests");
  let output_file_path := __get_output_path binary_name output_dir in
  TestBinary.run os test_binary excluded_tests output_file_path.

(** First check that all names are present in the config. *)
Fixpoint check_names (binaries : list string) : M t () :=
  match binaries with
  | [] => mret ()
  | binary_name :: rest =>
      self ← get_self;
      if PyDict.contains binary_name (tests self) then check_names rest
      else raise (Exception_ ("binary '" +:+ binary_name +:+ "' not found in config '"
                              +:+ config_path self +:+ "'"))
  end.

(** The second loop of [run], [suite_returncode] being its accumulator. *)
Fixpoint run_binaries (binaries : list string) (output_dir : option string)
    (suite_returncode : Z) : M t Z :=
  match binaries with
  | [] => mret suite_returncode
  | binary_name :: rest =>
      test_returncode ← __run binary_name output_dir;
      run_binaries rest output_dir (suite_returncode + test_returncode)%Z
  end.

Definition run (binaries : list string) (output_dir : option string) : M t Z :=
  check_names binaries;;
  run_binaries binaries output_dir 0%Z.

Definition run_only (binary_name : string) (output_dir : option string) : M t Z :=
  run [binary_name] output_dir.

Definition run_all (output_dir : option string) : M t Z :=
  names ← get_names;
  run names output_dir.

End Methods.
End TestsList.

(** * The command line: [Command], [parse_args] and [main] *)
Module Command.
Definition LIST : string := "list".
Definition RUN : string := "run".
End Command.

Module Cli.

(** What [parser.parse_args()] returns: the attributes that lines 22-33
    declare.  [command] is one of the [choices], [binary] is [None] without
    [--binary] and the list of the names after it otherwise, [config] is
    required, the two directories are optional.  argparse itself (the
    reading of [sys.argv], the usage message) is not modelled: the namespace
    is the input. *)
Record Namespace : Type := {
  command : string;
  binary : option (list string);
  config : string;
  tests_dir : option string;
  output_dir : option string
}.

(** The result of [parse_args]: the namespace, or [parser.error(message)],
    which prints the usage and the message and exits with status 2. *)
Inductive parsed (A : Type) : Type :=
| Parsed (a : A)
| ParserError (message : string).
Arguments Parsed {A} a.
Arguments ParserError {A} message.

#[global] Instance parsed_ret : MRet parsed := fun A a => Parsed a.
#[global] Instance parsed_bind : MBind parsed := fun A B f m =>
  match m with
  | Parsed a => f a
  | ParserError message => ParserError message
  end.

Section ParseArgs.
(** [os.path.abspath], [os.path.isfile] and [os.path.isdir]: the working
    directory and the file system. *)
Variable abspath : string → string.
Variables isfile isdir : string → bool.

Definition parse_args (args : Namespace) : parsed Namespace :=
  (* Additional checks. *)
  (if String.eqb (command args) Command.RUN && bool_decide (tests_dir args = None)
   then ParserError "specify a path to a dir with test binaries via --tests-dir"
   else Parsed ());;
  (* Absolutize and check paths. *)
  (* 'config' must exist and be a file. *)
  let config := abspath (config args) in
  (if isfile config then Parsed ()
   else ParserError ("file '" +:+ config +:+ "' doesn't exist"));;
  (* 'tests_dir' must exist and be a directory. *)
  tests_dir ←
    match tests_dir args with
    | None => Parsed None
    | Some dir =>
        let dir := abspath dir in
        if isdir dir then Parsed (Some dir)
        else ParserError ("directory '" +:+ dir +:+ "' doesn't exist")
    end;
  (* 'output_dir' must exist and be a directory. *)
  output_dir ←
    match output_dir args with
    | None => Parsed None
    | Some dir =>
        let dir := abspath dir in
        if isdir dir then Parsed (Some dir)
        else ParserError ("directory '" +:+ dir +:+ "' doesn't exist")
    end;
  Parsed {| command := command args; binary := binary args; config := config;
            tests_dir := tests_dir; output_dir := output_dir |}.

End ParseArgs.

(** How the process ends: [sys.exit(main())] with the value [main] returned,
    the exit of [parser.error], or an exception that nothing catches. *)
Inductive ending : Type :=
| Exit (status : Z)
| UsageError (message : string)
| Uncaught (e : exn).

(** What a run of the script does: its ending, the texts of its [print]
    statements, the children it launched. *)
Record trace : Type := Trace {
  ended : ending;
  printed : list string;
  children : list process
}.

Definition newline : string := String "010"%char EmptyString.

Section Main.
Variable abspath : string → string.
Variables isfile isdir : string → bool.
Variable __get_config_data : string → result value.
Variable os : launcher.

(** The ending of a method called on a fresh state. *)
Definition finish (r : result Z * world TestsList.t) : trace :=
  match r with
  | (Ok status, w) => Trace (Exit status) [] (launched w)
  | (Raise e, w) => Trace (Uncaught e) [] (launched w)
  end.

(** [main].  The object gets [tests_dir] as a string (see [TestsList.t]);
    where the script stores [None], for a command other than [run] given no
    [--tests-dir], no method reads the attribute, and the empty string
    stands for it. *)
Definition main (argv : Namespace) : trace :=
  match parse_args abspath isfile isdir argv with
  | ParserError message => Trace (UsageError message) [] []
  | Parsed args =>
      match TestsList.__init__ __get_config_data (config args)
              (default "" (tests_dir args)) with
      | Raise e => Trace (Uncaught e) [] []
      | Ok tests_list =>
          let w := World tests_list [] in
          if String.eqb (command args) Command.LIST then
            match TestsList.get_names w with
            | (Ok all_binaries_names, w) =>
                Trace (Exit 0) [String.concat newline all_binaries_names] (launched w)
            | (Raise e, w) => Trace (Uncaught e) [] (launched w)
            end
          else if String.eqb (command args) Command.RUN then
            match binary args with
            | Some names => finish (TestsList.run os names (output_dir args) w)
            | None => finish (TestsList.run_all os (output_dir args) w)
            end
          else
            Trace (Uncaught (Exception_ ("unexpected command '" +:+ command args +:+ "'")))
                  [] []
      end
  end.

End Main.
End Cli.

(** * Vocabulary of the specification *)
Module Spec.

(** The distinct names of a sequence, in order of first occurrence. *)
Fixpoint first_seen (names : list string) : list string :=
  match names with
  | [] => []
  | n :: rest => n :: filter (λ x, x ≠ n) (first_seen rest)
  end.

(** The settings of the last entry for a name. *)
Fixpoint last_settings (n : string) (data : list (string * value)) : option value :=
  match data with
  | [] => None
  | (k, v) :: rest =>
      match last_settings n rest with
      | Some v' => Some v'
      | None => if String.eqb n k then Some v else None
      end
  end.

(** The record [__get_test_data] starts from: no exclusions, no platforms. *)
Definition no_exclusions : value :=
  py_dict (PyDict.setitem "platforms" YNull
             (PyDict.setitem "excluded_tests" YNull PyDict.empty)).

(** An [excluded_tests] value: [None] or a list of strings. *)
Definition is_tests_list (v : value) : bool :=
  match v with
  | YNull => true
  | YSeq l => forallb (λ y, match y with YStr _ => true | _ => false end) l
  | _ => false
  end.

(** A registry whose every value is a dict with such an [excluded_tests]. *)
Definition is_test_data (v : value) : bool :=
  match py_getitem v "excluded_tests" with
  | Ok e => is_tests_list e
  | Raise _ => false
  end.

Definition well_formed (tests : PyDict.dict value) : bool :=
  forallb (λ kv, is_test_data kv.2) tests.

(** The exit codes of children launched one after the other. *)
Fixpoint exit_codes (exit_code : list process → process → Z)
    (history children : list process) : list Z :=
  match children with
  | [] => []
  | p :: rest => exit_code history p :: exit_codes exit_code (history ++ [p]) rest
  end.

(** Their arithmetic sum. *)
Definition total (codes : list Z) : Z := fold_right Z.add 0%Z codes.

(** The dict after [d[n] = v] for each pair of a list, in order. *)
Definition set_all (data : list (string * value)) (d : PyDict.dict value)
  : PyDict.dict value :=
  fold_left (λ d nv, PyDict.setitem nv.1 nv.2 d) data d.

(** The strings of a list of values. *)
Definition strings_of (l : list value) : list string :=
  omap (λ y, match y with YStr s => Some s | _ => None end) l.

(** The identifiers an [excluded_tests] value lists. *)
Definition excluded_of (v : value) : list string :=
  match v with
  | YSeq l => strings_of l
  | _ => []
  end.

(** The filter argument for a list of excluded identifiers: none, or ['-']
    and the identifiers joined by colons after [--gtest_filter=]. *)
Definition filter_argument (excluded : list string) : string :=
  match excluded with
  | [] => ""
  | _ => "--gtest_filter=" +:+ "-" +:+ String.concat ":" excluded
  end.

(** The message of the exception [run] raises for an unknown binary. *)
Definition not_found (binary_name config_path : string) : exn :=
  Exception_ ("binary '" +:+ binary_name +:+ "' not found in config '"
              +:+ config_path +:+ "'").

(** A method that leaves [self] as it found it. *)
Definition preserves_self {S A} (m : M S A) : Prop := ∀ w, self (m w).2 = self w.

(** The child is passed a filter argument, an output argument (after the
    path of the executable). *)
Definition passes_filter (p : process) : bool :=
  existsb (String.prefix "--gtest_filter") (tail (args p)).

Definition passes_output (p : process) : bool :=
  existsb (String.prefix "--gtest_output") (tail (args p)).

End Spec.

(** * Vocabulary of the proofs about the hash table *)
Module PyDictSpec.
Import PyDict.

(** [geo n = 1 + 5 + ... + 5^(n-1)]. *)
Fixpoint geo (n : nat) : Z :=
  match n with
  | O => 0%Z
  | S n' => (5 * geo n' + 1)%Z
  end.

(** The probe step once [perturb] is exhausted. *)
Definition step (m i : nat) : nat := (5 * i + 1) mod m.

(** The invariant of a table between two [PyDict_SetItem]s. *)
Definition table_ok (t : table) : Prop :=
  (∃ k, length t = 2 ^ k) ∧ length (active t) < length t.

End PyDictSpec.

(** * Configurations and launchers of the examples *)
Module Examples.
Import Spec.

(** The configuration of the end-to-end scenario:
    [{tests: [a_tests, {b_tests: {to_fix: [X.Y]}}]}]. *)
Definition scenario : value :=
  YMap [("tests", YSeq [YStr "a_tests";
                         YMap [("b_tests", YMap [("to_fix", YSeq [YStr "X.Y"])])]])].

(** [{tests: [a, b, c]}]. *)
Definition abc : value := YMap [("tests", YSeq [YStr "a"; YStr "b"; YStr "c"])].

(** [{tests: [b1, {b2: null}]}], loaded. *)
Definition two_binaries : TestsList.t :=
  TestsList.Build "tests.yml" "/out/tests"
    [("b1", no_exclusions); ("b2", no_exclusions)].

(** A launcher under which [b1] exits 0 and every other binary exits 2. *)
Definition exits_0_2 (history : list process) (p : process) : Z :=
  match args p with
  | "/out/tests/b1" :: _ => 0
  | _ => 2
  end.

End Examples.

(** * Vocabulary of the further properties *)
Module Expected.
Import Spec.

(** The child that [__run] launches for a binary: its path under the tests
    directory, the filter for the exclusions the registry holds for it, the
    output argument for its results file. *)
Definition child_of (obj : TestsList.t) (output_dir : option string)
    (binary_name : string) : process :=
  let excluded :=
    match PyDict.getitem binary_name (TestsList.tests obj) with
    | Some test_data =>
        match py_getitem test_data "excluded_tests" with
        | Ok excluded => excluded
        | Raise _ => YNull
        end
    | None => YNull
    end in
  Process [os_path_join (TestsList.tests_dir obj) binary_name;
           filter_argument (excluded_of excluded);
           match TestsList.__get_output_path binary_name output_dir with
           | Some path => "--gtest_output=xml:" +:+ path
           | None => ""
           end]
          (match output_dir with Some _ => DevNull | None => Inherit end).

(** The launches of [children], one after the other from [history] on,
    yield the exit codes [codes]. *)
Fixpoint succeed (os : launcher) (history children : list process) (codes : list Z)
  : Prop :=
  match children, codes with
  | [], [] => True
  | p :: children', c :: codes' =>
      os history p = Ok c ∧ succeed os (history ++ [p]) children' codes'
  | _, _ => False
  end.

(** The namespace [parse_args] returns when it returns one: the one given,
    its three paths made absolute. *)
Definition absolutized (abspath : string → string) (args : Cli.Namespace) : Cli.Namespace :=
  {| Cli.command := Cli.command args; Cli.binary := Cli.binary args;
     Cli.config := abspath (Cli.config args);
     Cli.tests_dir := abspath <$> Cli.tests_dir args;
     Cli.output_dir := abspath <$> Cli.output_dir args |}.

End Expected.

(** * Further configurations, launchers and command lines *)
Module FurtherExamples.
Import Spec Examples.

(** A launcher under which [b1] exits 0 and no other binary can be
    launched. *)
Definition only_b1 : launcher := λ history p,
  match args p with
  | "/out/tests/b1" :: _ => Ok 0%Z
  | _ => Raise OSError
  end.

(** The configuration [{tests: [b1, {b2: null}, b1]}]. *)
Definition b1_b2_b1 : value :=
  YMap [("tests", YSeq [YStr "b1"; YMap [("b2", YNull)]; YStr "b1"])].

(** [{tests: {b_tests: {to_fix: [X.Y]}, a_tests: null}}]: the entries
    written as a mapping, not as a list. *)
Definition tests_as_mapping : value :=
  YMap [("tests", YMap [("b_tests", YMap [("to_fix", YSeq [YStr "X.Y"])]);
                         ("a_tests", YNull)])].

(** A file system with the file [/etc/tests.yml] and the directories
    [/out/tests] and [/out/results]; every path is taken as absolute. *)
Definition isfile (path : string) : bool := String.eqb path "/etc/tests.yml".
Definition isdir (path : string) : bool :=
  String.eqb path "/out/tests" || String.eqb path "/out/results".
Definition abspath (path : string) : string := path.

(** [list -c /etc/tests.yml]. *)
Definition argv_list : Cli.Namespace :=
  {| Cli.command := "list"; Cli.binary := None; Cli.config := "/etc/tests.yml";
     Cli.tests_dir := None; Cli.output_dir := None |}.

(** [run -c /etc/tests.yml -t /out/tests -b], no name after [-b]. *)
Definition argv_run_none : Cli.Namespace :=
  {| Cli.command := "run"; Cli.binary := Some []; Cli.config := "/etc/tests.yml";
     Cli.tests_dir := Some "/out/tests"; Cli.output_dir := None |}.

End FurtherExamples.

(** * Facts about the dict model *)
Module PyDictFacts.
Import PyDict PyDictSpec.

(** ** The probe visits every slot *)

Lemma geo_pow n : (4 * geo n + 1 = 5 ^ Z.of_nat n)%Z.
Proof.
  induction n as [|n IH]; [reflexivity|].
  rewrite Nat2Z.inj_succ, Z.pow_succ_r by lia. simpl geo. lia.
Qed.

Lemma geo_add a b : (geo (a + b) = geo a + (4 * geo a + 1) * geo b)%Z.
Proof.
  induction b as [|b IH].
  - rewrite Nat.add_0_r. simpl. lia.
  - rewrite Nat.add_succ_r. simpl geo. rewrite IH. lia.
Qed.

Lemma geo_double e : (geo (e + e) = 2 * (geo e * (2 * geo e + 1)))%Z.
Proof. rewrite geo_add. lia. Qed.

Lemma pow2_divide_odd (k : nat) (x y : Z) :
  (2 ^ Z.of_nat k | x * (2 * y + 1))%Z → (2 ^ Z.of_nat k | x)%Z.
Proof.
  revert x. induction k as [|k IH]; intros x H.
  - apply Z.divide_1_l.
  - rewrite Nat2Z.inj_succ, Z.pow_succ_r in * by lia.
    destruct H as [q Hq].
    assert (Hx : ∃ x', x = (2 * x')%Z).
    { destruct (Z.Even_or_Odd x) as [[x' ->]|[x' ->]]; [by eexists|]. lia. }
    destruct Hx as [x' ->].
    apply Z.mul_divide_mono_l, IH. exists q. lia.
Qed.

Lemma geo_divide (k d : nat) : (2 ^ Z.of_nat k | geo d)%Z → (2 ^ Z.of_nat k | Z.of_nat d)%Z.
Proof.
  revert d. induction k as [|k IH]; intros d H.
  - apply Z.divide_1_l.
  - rewrite Nat2Z.inj_succ, Z.pow_succ_r in * by lia.
    destruct (Nat.Even_or_Odd d) as [[e ->]|[e ->]].
    + replace (2 * e)%nat with (e + e)%nat in * by lia.
      rewrite geo_double in H. apply Z.mul_divide_cancel_l in H; [|lia].
      apply pow2_divide_odd, IH in H.
      replace (Z.of_nat (e + e)) with (2 * Z.of_nat e)%Z by lia.
      by apply Z.mul_divide_mono_l.
    + exfalso. replace (2 * e + 1)%nat with (S (e + e)) in H by lia.
      simpl geo in H. rewrite geo_double in H. destruct H as [q Hq]. lia.
Qed.

Lemma mod_eq_divide (a b m : Z) : m ≠ 0%Z → (a mod m = b mod m)%Z → (m | b - a)%Z.
Proof.
  intros Hm H. apply Z.mod_divide; [done|].
  by rewrite Zminus_mod, H, Z.sub_diag.
Qed.

Lemma iter_step (m i n : nat) :
  m ≠ 0 → i < m →
  Z.of_nat (Nat.iter n (step m) i) = ((Z.of_nat i + geo n * (4 * Z.of_nat i + 1)) mod Z.of_nat m)%Z.
Proof.
  intros Hm Hi. induction n as [|n IH].
  - simpl. rewrite Z.add_0_r, Z.mod_small; lia.
  - rewrite Nat.iter_succ. unfold step at 1.
    rewrite Nat2Z.inj_mod, Nat2Z.inj_add, Nat2Z.inj_mul, IH.
    simpl geo. rewrite Z.add_mod, Z.mul_mod_idemp_r, <- Z.add_mod by lia.
    f_equal. lia.
Qed.

Lemma iter_step_lt (m i n : nat) : m ≠ 0 → i < m → Nat.iter n (step m) i < m.
Proof.
  intros Hm Hi. destruct n; [done|]. rewrite Nat.iter_succ. unfold step.
  by apply Nat.mod_upper_bound.
Qed.

Lemma iter_step_inj (k i a b : nat) :
  i < 2 ^ k → a < b < 2 ^ k →
  Nat.iter a (step (2 ^ k)) i ≠ Nat.iter b (step (2 ^ k)) i.
Proof.
  intros Hi [Hab Hb] Heq.
  assert (Hm : 2 ^ k ≠ 0) by (apply Nat.pow_nonzero; lia).
  apply (f_equal Z.of_nat) in Heq. rewrite !iter_step in Heq by done.
  replace b with (a + (b - a))%nat in Heq by lia. rewrite geo_add in Heq.
  assert (Hpow : Z.of_nat (2 ^ k) = (2 ^ Z.of_nat k)%Z).
  { rewrite Nat2Z.inj_pow. reflexivity. }
  rewrite Hpow in Heq.
  assert (Hdiv : (2 ^ Z.of_nat k | geo (b - a))%Z).
  { apply (pow2_divide_odd _ _ (2 * geo a)), (pow2_divide_odd _ _ (2 * Z.of_nat i)).
    apply mod_eq_divide in Heq; [|lia].
    destruct Heq as [q Hq]. exists q. lia. }
  apply geo_divide in Hdiv. destruct Hdiv as [q Hq].
  assert (0 < q)%Z by nia. nia.
Qed.

Lemma iter_step_covers (k i e : nat) :
  i < 2 ^ k → e < 2 ^ k → ∃ n, n < 2 ^ k ∧ Nat.iter n (step (2 ^ k)) i = e.
Proof.
  intros Hi He. set (m := 2 ^ k) in *.
  assert (Hm : m ≠ 0) by (apply Nat.pow_nonzero; lia).
  set (orbit := (λ n, Nat.iter n (step m) i) <$> seq 0 m).
  assert (Hnd : NoDup orbit).
  { apply NoDup_fmap_2_strong; [|apply NoDup_seq].
    intros a b Ha Hb Hab. apply elem_of_seq in Ha, Hb.
    destruct (Nat.lt_trichotomy a b) as [Hlt|[->|Hlt]]; [|done|].
    - exfalso. apply (iter_step_inj k i a b); [done|lia|done].
    - exfalso. apply (iter_step_inj k i b a); [done|lia|done]. }
  assert (Hsub : orbit ⊆+ seq 0 m).
  { apply NoDup_submseteq; [done|]. intros x Hx.
    apply list_elem_of_fmap in Hx as (n & -> & _). apply elem_of_seq.
    split; [lia|]. by apply iter_step_lt. }
  apply submseteq_length_Permutation in Hsub;
    [|by unfold orbit; rewrite length_fmap].
  assert (Hin : e ∈ orbit) by (rewrite Hsub; apply elem_of_seq; lia).
  apply list_elem_of_fmap in Hin as (n & -> & Hn). apply elem_of_seq in Hn.
  exists n. split; [lia|done].
Qed.

(** ** The probe finds a free slot *)

Lemma lookdict_free fuel (t : table) i p s :
  lookdict fuel t i p = Some s → t !! s = Some None.
Proof.
  revert i p. induction fuel as [|fuel IH]; intros i p; [done|].
  simpl. destruct (t !! i) as [[key|]|] eqn:E; eauto. by intros [= <-].
Qed.

Lemma lookdict_zero (t : table) k n : ∀ fuel i,
  length t = 2 ^ k → i < 2 ^ k → n < fuel →
  t !! Nat.iter n (step (2 ^ k)) i = Some None →
  is_Some (lookdict fuel t i 0).
Proof.
  induction n as [|n IH]; intros fuel i Hlen Hi Hfuel Hfree;
    (destruct fuel as [|fuel]; [lia|]); simpl lookdict.
  - simpl in Hfree. by rewrite Hfree.
  - assert (Hm : 2 ^ k ≠ 0) by (apply Nat.pow_nonzero; lia).
    assert (Hstep : N.to_nat ((5 * N.of_nat i + 0 + 1) `mod` N.of_nat (length t))%N
                    = step (2 ^ k) i).
    { rewrite N2Nat.inj_mod, Hlen, Nat2N.id. unfold step. f_equal. lia. }
    rewrite Nat.iter_succ_r in Hfree.
    destruct (t !! i) as [[key|]|]; [| eauto |];
      rewrite Hstep; (apply IH; [done| |lia|done]);
      unfold step; by apply Nat.mod_upper_bound.
Qed.

Lemma lookdict_finds (t : table) k c : ∀ fuel i p,
  length t = 2 ^ k → length (active t) < length t →
  i < 2 ^ k → (p < 2 ^ N.of_nat c)%N → c + 2 ^ k ≤ fuel →
  is_Some (lookdict fuel t i p).
Proof.
  intros fuel i p Hlen Hfree. revert fuel i p.
  assert (Hm : 2 ^ k ≠ 0) by (apply Nat.pow_nonzero; lia).
  assert (He : ∃ e, t !! e = Some None).
  { clear -Hfree. induction t as [|[key|] t IH]; simpl in *; [lia| |by exists 0].
    destruct IH as [e He]; [unfold active in *; simpl in *; lia|]. by exists (S e). }
  destruct He as [e He].
  assert (e < 2 ^ k) by (rewrite <- Hlen; by eapply lookup_lt_Some).
  induction c as [|c IH]; intros fuel i p Hi Hp Hfuel.
  - assert (p = 0%N) as -> by (simpl in Hp; lia).
    destruct (iter_step_covers k i e) as (n & Hn & Hiter); [done..|].
    apply (lookdict_zero t k n); [done|done|lia|by rewrite Hiter].
  - destruct fuel as [|fuel]; [lia|]. simpl lookdict.
    destruct (t !! i) as [[key|]|]; [| eauto |];
      (apply IH; [rewrite Hlen, N2Nat.inj_mod, Nat2N.id; by apply Nat.mod_upper_bound | | lia]);
      unfold PERTURB_SHIFT; rewrite N.shiftr_div_pow2;
      (apply N.Div0.div_lt_upper_bound;
       rewrite Nat2N.inj_succ, N.pow_succ_r' in Hp; lia).
Qed.

(** ** Insertion keeps every key, once *)

Lemma size_nat_gt (h : N) : (h < 2 ^ N.of_nat (N.size_nat h))%N.
Proof.
  destruct h as [|p]; [done|]. simpl N.size_nat.
  induction p as [p IH|p IH|]; simpl Pos.size_nat;
    rewrite ?Nat2N.inj_succ, ?N.pow_succ_r'; simpl; lia.
Qed.

Lemma insertdict_clean_active (t : table) k key :
  length t = 2 ^ k → length (active t) < length t →
  length (insertdict_clean t key) = length t ∧
  active (insertdict_clean t key) ≡ₚ key :: active t.
Proof.
  intros Hlen Hfree. unfold insertdict_clean. cbv zeta.
  assert (Hm : 2 ^ k ≠ 0) by (apply Nat.pow_nonzero; lia).
  destruct (lookdict_finds t k (N.size_nat (string_hash key))
              (probe_fuel t (string_hash key))
              (N.to_nat (string_hash key `mod` N.of_nat (length t))%N)
              (string_hash key)) as [s Hs]; [done|done| | | |].
  - rewrite Hlen, N2Nat.inj_mod, Nat2N.id. by apply Nat.mod_upper_bound.
  - apply size_nat_gt.
  - unfold probe_fuel. lia.
  - rewrite Hs. cbv beta iota. split; [by rewrite length_insert|].
    apply lookdict_free in Hs.
    assert (Hlt : s < length t) by by eapply lookup_lt_Some.
    rewrite insert_take_drop by done.
    rewrite <- (take_drop_middle t s None) at 3 by done.
    unfold active. rewrite !omap_app. simpl.
    by rewrite Permutation_middle.
Qed.

Lemma fold_insertdict_clean (ks : list string) : ∀ (t : table) k,
  length t = 2 ^ k → length (active t) + length ks ≤ length t →
  length (fold_left insertdict_clean ks t) = length t ∧
  active (fold_left insertdict_clean ks t) ≡ₚ active t ++ ks.
Proof.
  induction ks as [|key ks IH]; intros t k Hlen Hroom; simpl.
  - by rewrite app_nil_r.
  - simpl in Hroom.
    destruct (insertdict_clean_active t k key) as [Hlen' Hperm]; [done|lia|].
    destruct (IH (insertdict_clean t key) k) as [Hlen'' Hperm''].
    + by rewrite Hlen'.
    + rewrite Hlen', Hperm. simpl. lia.
    + split; [by rewrite Hlen''|].
      rewrite Hperm'', Hperm. simpl. by rewrite Permutation_middle.
Qed.

Lemma newsize_spec (minused : nat) :
  minused < newsize minused ∧ ∃ k, newsize minused = 2 ^ k.
Proof.
  unfold newsize, PyDict_MINSIZE.
  assert (Hlt : minused < 2 ^ S (Nat.log2 minused)).
  { destruct minused; [simpl; lia|]. apply Nat.log2_spec. lia. }
  destruct (Nat.max_spec 8 (2 ^ S (Nat.log2 minused))) as [[? ->]|[? ->]].
  - split; [done|by eexists].
  - split; [lia|by exists 3].
Qed.

Lemma active_replicate (n : nat) : active (replicate n None) = [].
Proof. induction n; [done|by simpl]. Qed.

Lemma insertdict_active (t : table) key :
  table_ok t → table_ok (insertdict t key) ∧ active (insertdict t key) ≡ₚ key :: active t.
Proof.
  intros [[k Hlen] Hfree]. unfold insertdict.
  destruct (insertdict_clean_active t k key) as [Hlen' Hperm]; [done..|].
  set (t' := insertdict_clean t key) in *.
  assert (Hused : length (active t') = S (length (active t))) by by rewrite Hperm.
  destruct (Nat.leb_spec (2 * length t') (3 * length (active t'))) as [Hfull|Hroom].
  - set (minused := ((if (50000 <? N.of_nat (length (active t')))%N then 2 else 4)
                     * length (active t'))%nat).
    destruct (newsize_spec minused) as [Hbig [k' Hk']].
    assert (Hmin : length (active t') < newsize minused).
    { unfold minused in *. destruct (50000 <? _)%N; lia. }
    destruct (fold_insertdict_clean (active t') (replicate (newsize minused) None) k')
      as [Hlen'' Hperm''].
    + by rewrite length_replicate.
    + rewrite active_replicate, length_replicate. simpl. lia.
    + rewrite length_replicate in Hlen''. rewrite active_replicate in Hperm''.
      simpl in Hperm''. unfold dictresize. fold minused. split.
      * split; [exists k'; by rewrite Hlen''|]. by rewrite Hperm'', Hlen''.
      * by rewrite Hperm''.
  - split; [|done]. split; [exists k; by rewrite Hlen'|lia].
Qed.

Lemma fold_insertdict (ks : list string) : ∀ t : table,
  table_ok t → active (fold_left insertdict ks t) ≡ₚ active t ++ ks.
Proof.
  induction ks as [|key ks IH]; intros t Hok; simpl.
  - by rewrite app_nil_r.
  - destruct (insertdict_active t key) as [Hok' Hperm]; [done|].
    rewrite IH, Hperm by done. simpl. by rewrite Permutation_middle.
Qed.

(** Iteration yields every key, once. *)
Lemma slot_order_perm (ks : list string) : slot_order ks ≡ₚ ks.
Proof.
  unfold slot_order. rewrite fold_insertdict.
  - unfold PyDict_MINSIZE. by rewrite active_replicate.
  - split; [by exists 3|]. unfold PyDict_MINSIZE. rewrite active_replicate. simpl. lia.
Qed.
End PyDictFacts.

(** * Facts about the contents of a dict *)
Module PyDictContents.
Import PyDict.

Section Contents.
Context {V : Type}.
Implicit Types (d : dict V) (k : string) (v : V).

Lemma contains_elem k d : contains k d = true ↔ k ∈ map fst d.
Proof.
  unfold contains. induction d as [|[k' v'] d IH]; simpl.
  - split; [done|]. by intros ?%elem_of_nil.
  - rewrite elem_of_cons. destruct (String.eqb_spec k k') as [->|Hne].
    + split; [by left|done].
    + rewrite IH. split; [by right|]. by intros [?|?].
Qed.

Lemma getitem_contains k d : contains k d = true → is_Some (getitem k d).
Proof. unfold contains. destruct (getitem k d); [eauto|done]. Qed.

Lemma getitem_elem k v d : getitem k d = Some v → (k, v) ∈ d.
Proof.
  induction d as [|[k' v'] d IH]; simpl; [done|].
  destruct (String.eqb_spec k k') as [->|Hne].
  - intros [= ->]. apply elem_of_cons. by left.
  - intros H. apply elem_of_cons. right. by apply IH.
Qed.

Lemma getitem_setitem k v d k' :
  getitem k' (setitem k v d) = if String.eqb k' k then Some v else getitem k' d.
Proof.
  induction d as [|[k0 v0] d IH]; simpl; [done|].
  destruct (String.eqb_spec k k0) as [->|Hne]; simpl.
  - by destruct (String.eqb_spec k' k0).
  - rewrite IH. destruct (String.eqb_spec k' k0) as [->|Hne']; [|done].
    by destruct (String.eqb_spec k0 k).
Qed.

Lemma keys_setitem k v d :
  map fst (setitem k v d) = if contains k d then map fst d else map fst d ++ [k].
Proof.
  unfold contains. induction d as [|[k0 v0] d IH]; simpl; [done|].
  destruct (String.eqb_spec k k0) as [->|Hne]; simpl; [done|].
  rewrite IH. by destruct (getitem k d).
Qed.

(** [d.keys()] holds every key of the dict, once. *)
Lemma keys_perm d : keys d ≡ₚ map fst d.
Proof. apply PyDictFacts.slot_order_perm. Qed.

Lemma keys_singleton k v : keys [(k, v)] = [k].
Proof. apply Permutation_singleton_r. exact (keys_perm [(k, v)]). Qed.

Lemma contains_keys k d : k ∈ keys d → contains k d = true.
Proof. rewrite keys_perm. apply contains_elem. Qed.

End Contents.
End PyDictContents.

(** * Facts about the loading of a configuration *)
Module LoaderFacts.
Import PyDict PyDictContents Spec TestsList.

Lemma first_seen_elem (names : list string) x : x ∈ first_seen names ↔ x ∈ names.
Proof.
  induction names as [|n names IH]; simpl; [done|].
  rewrite !elem_of_cons, list_elem_of_filter, IH.
  destruct (decide (x = n)); tauto.
Qed.

Lemma first_seen_NoDup (names : list string) : NoDup (first_seen names).
Proof.
  induction names as [|n names IH]; simpl; [constructor|].
  constructor; [|by apply NoDup_filter].
  rewrite list_elem_of_filter. tauto.
Qed.

Lemma filter_twice (P Q R : string → Prop) `{∀ x, Decision (P x)} `{∀ x, Decision (Q x)}
    `{∀ x, Decision (R x)} (l : list string) :
  (∀ x, R x ↔ P x ∧ Q x) → filter P (filter Q l) = filter R l.
Proof.
  intros HR. induction l as [|x l IH]; [done|].
  rewrite (filter_cons Q), (filter_cons R).
  destruct (decide (Q x)) as [HQ|HQ], (decide (R x)) as [HR'|HR'].
  - rewrite filter_cons, decide_True by (by apply HR). by rewrite IH.
  - rewrite filter_cons, decide_False by (intros HP; apply HR'; by apply HR). done.
  - destruct HQ. by apply HR.
  - done.
Qed.

Lemma keys_set_all (data : list (string * value)) : ∀ d : dict value,
  map fst (set_all data d)
  = map fst d ++ filter (λ x, x ∉ map fst d) (first_seen (map fst data)).
Proof.
  induction data as [|[n v] data IH]; intros d; simpl.
  - by rewrite app_nil_r.
  - unfold set_all in *. simpl. rewrite IH, keys_setitem.
    destruct (contains n d) eqn:E.
    + apply contains_elem in E. rewrite filter_cons, decide_False by tauto.
      f_equal. symmetry. apply filter_twice. intros x. split; [|tauto].
      intros Hx. split; [done|]. by intros ->.
    + assert (Hn : n ∉ map fst d) by (rewrite <- contains_elem, E; done).
      rewrite filter_cons, decide_True by done.
      rewrite <- app_assoc. simpl. do 2 f_equal. symmetry. apply filter_twice.
      intros x. rewrite not_elem_of_app, list_elem_of_singleton. tauto.
Qed.

Lemma getitem_set_all (data : list (string * value)) : ∀ (d : dict value) n,
  getitem n (set_all data d)
  = match last_settings n data with Some v => Some v | None => getitem n d end.
Proof.
  induction data as [|[k v] data IH]; intros d n; [done|].
  unfold set_all in *. simpl. rewrite IH, getitem_setitem.
  destruct (last_settings n data); [done|]. by destruct (String.eqb n k).
Qed.

Lemma last_settings_elem n (data : list (string * value)) :
  n ∈ map fst data → is_Some (last_settings n data).
Proof.
  induction data as [|[k v] data IH]; simpl; [by intros ?%elem_of_nil|].
  rewrite elem_of_cons. intros [->|Hin].
  - rewrite String.eqb_refl. destruct (last_settings k data); eauto.
  - destruct (IH Hin) as [v' ->]. eauto.
Qed.

Lemma fill_tests_list_data (items : list value) : ∀ d : dict value,
  fill_tests_list items d
  = data ← mapM __get_test_data items; Ok (set_all data d).
Proof.
  induction items as [|item items IH]; intros d; [done|].
  simpl. destruct (__get_test_data item) as [[n v]|e]; [|done].
  simpl. rewrite IH. by destruct (mapM __get_test_data items).
Qed.

Lemma py_dict_singleton k v : py_dict [(k, v)] = YMap [(k, v)].
Proof. unfold py_dict. rewrite keys_singleton. simpl. by rewrite String.eqb_refl. Qed.

Lemma no_exclusions_items :
  no_exclusions = YMap [("platforms", YNull); ("excluded_tests", YNull)].
Proof. vm_compute. reflexivity. Qed.

Lemma get_test_data_null name :
  __get_test_data (YMap [(name, YNull)]) = Ok (name, no_exclusions).
Proof. unfold __get_test_data. simpl. by rewrite String.eqb_refl. Qed.

Lemma get_test_data_shorthand name :
  __get_test_data (YStr name) = Ok (name, no_exclusions).
Proof.
  unfold __get_test_data, __expand_shorthand. simpl setitem.
  rewrite py_dict_singleton. apply get_test_data_null.
Qed.

(** Whatever entry is accepted gets the starting record: line 157 never
    stores anything. *)
Lemma get_test_data_ok entry n v :
  __get_test_data entry = Ok (n, v) → v = no_exclusions.
Proof.
  assert (Hmap : ∀ items, __get_test_data (YMap items) = Ok (n, v) → v = no_exclusions).
  { intros [|[k configs] items]; [done|]. unfold __get_test_data. simpl.
    rewrite String.eqb_refl. simpl.
    destruct configs as [|b|z|s|l|settings]; simpl; try done.
    - by intros [= _ <-].
    - destruct (is_substring "to_fix" s); simpl; [done|by intros [= _ <-]].
    - destruct (existsb _ l); simpl; [done|by intros [= _ <-]].
    - destruct (contains "to_fix" settings); simpl.
      + by destruct (getitem "to_fix" settings).
      + by intros [= _ <-]. }
  destruct entry; try done.
  - rewrite get_test_data_shorthand. by intros [= _ <-].
  - apply Hmap.
Qed.

(** An entry whose settings hold [to_fix] is rejected with an
    [AttributeError]: line 157 assigns an attribute of a dict. *)
Lemma get_test_data_to_fix name settings rest :
  contains "to_fix" settings = true →
  __get_test_data (YMap ((name, YMap settings) :: rest)) = Raise AttributeError.
Proof.
  intros Hin. unfold __get_test_data. simpl. rewrite String.eqb_refl. simpl.
  rewrite Hin. simpl. apply getitem_contains in Hin as [v ->]. done.
Qed.

(** An entry whose settings are a mapping without [to_fix] gets no
    exclusions. *)
Lemma get_test_data_no_to_fix name settings rest :
  contains "to_fix" settings = false →
  __get_test_data (YMap ((name, YMap settings) :: rest)) = Ok (name, no_exclusions).
Proof.
  intros Hin. unfold __get_test_data. simpl. rewrite String.eqb_refl. simpl.
  by rewrite Hin.
Qed.

Lemma mapM_Forall2 {A B} (f : A → result B) (l : list A) : ∀ data,
  mapM f l = Ok data → Forall2 (λ x y, f x = Ok y) l data.
Proof.
  induction l as [|x l IH]; intros data; simpl.
  - intros [= <-]. constructor.
  - destruct (f x) as [y|e] eqn:Hx; [|done]. simpl.
    destruct (mapM f l) as [ys|e]; [|done]. simpl. intros [= <-].
    constructor; [done|by apply IH].
Qed.

Lemma setitem_values {V} (Q : V → Prop) k v (d : dict V) :
  Q v → Forall (λ kv, Q kv.2) d → Forall (λ kv, Q kv.2) (setitem k v d).
Proof.
  intros Hv. induction 1 as [|[k' v'] d Hkv Hd IH]; simpl.
  - by repeat constructor.
  - destruct (String.eqb k k'); constructor; done.
Qed.

Lemma set_all_values (Q : value → Prop) (data : list (string * value)) : ∀ d : dict value,
  Forall (λ kv, Q kv.2) data → Forall (λ kv, Q kv.2) d →
  Forall (λ kv, Q kv.2) (set_all data d).
Proof.
  induction data as [|[k v] data IH]; intros d Hdata Hd; [done|].
  apply Forall_cons in Hdata as [Hv Hdata]. unfold set_all in *. simpl.
  apply IH; [done|]. by apply setitem_values.
Qed.

(** What [__init__] returns, in terms of the entries of the document. *)
Lemma init_data load config_path tests_dir config_data entries obj :
  load config_path = Ok config_data →
  py_getitem config_data "tests" = Ok (YSeq entries) →
  __init__ load config_path tests_dir = Ok obj →
  ∃ data, mapM __get_test_data entries = Ok data
          ∧ obj = Build config_path tests_dir (set_all data []).
Proof.
  intros Hload Htests. unfold __init__, __get_tests_list.
  rewrite Hload. simpl. rewrite Htests. simpl.
  rewrite fill_tests_list_data.
  destruct (mapM __get_test_data entries) as [data|e]; [|done]. simpl.
  intros [= <-]. eauto.
Qed.

(** Every registry that [__init__] builds is well formed: each value is the
    starting record. *)
Lemma init_well_formed load config_path tests_dir obj :
  __init__ load config_path tests_dir = Ok obj → well_formed (tests obj) = true.
Proof.
  unfold __init__, __get_tests_list.
  destruct (load config_path) as [config_data|e]; [|done]. simpl.
  destruct (py_getitem config_data "tests") as [entries|e]; [|done]. simpl.
  destruct (py_iter entries) as [items|e]; [|done]. simpl.
  rewrite fill_tests_list_data.
  destruct (mapM __get_test_data items) as [data|e] eqn:Hdata; [|done]. simpl.
  intros [= <-]. simpl. unfold well_formed. apply forallb_forall.
  intros kv Hkv%list_elem_of_In. revert kv Hkv. apply Forall_forall.
  apply (set_all_values (λ v, is_test_data v = true)); [|constructor].
  apply mapM_Forall2 in Hdata. clear -Hdata.
  induction Hdata as [|entry [n v] items data Hentry _ IH]; constructor; [|done].
  apply get_test_data_ok in Hentry as ->. done.
Qed.

End LoaderFacts.

(** * Facts about the methods that run binaries *)
Module RunFacts.
Import PyDict PyDictContents Spec.

(** ** No method assigns to the object *)

Create HintDb preserves discriminated.

Section Preserve.
Context {S : Type}.

Lemma preserves_ret {A} (a : A) : preserves_self (S := S) (mret a).
Proof. by intros w. Qed.

Lemma preserves_bind {A B} (m : M S A) (f : A → M S B) :
  preserves_self m → (∀ a, preserves_self (f a)) → preserves_self (m ≫= f).
Proof.
  intros Hm Hf w. unfold mbind, M_bind. specialize (Hm w).
  destruct (m w) as [[a|e] w']; simpl in *; [|done]. by rewrite Hf.
Qed.

Lemma preserves_raise {A} e : preserves_self (S := S) (raise (A := A) e).
Proof. by intros w. Qed.

Lemma preserves_lift {A} (r : result A) : preserves_self (S := S) (lift r).
Proof. by intros w. Qed.

Lemma preserves_get_self : preserves_self (S := S) get_self.
Proof. by intros w. Qed.

Lemma preserves_subprocess_call os p : preserves_self (S := S) (subprocess_call os p).
Proof. by intros w. Qed.

End Preserve.

#[export] Hint Resolve preserves_ret preserves_raise preserves_lift preserves_get_self
  preserves_subprocess_call : preserves.

(** Goes through the binds of a method body; the hints close the leaves. *)
Ltac preserve :=
  cbv zeta;
  first [ solve [auto with preserves]
        | apply preserves_bind; [preserve | intros ?; preserve]
        | idtac ].

Lemma preserves_TestBinary_run {S} os tb excluded output :
  preserves_self (S := S) (TestBinary.run os tb excluded output).
Proof.
  unfold TestBinary.run. destruct excluded; preserve;
    match goal with |- context [(0 <? ?n)%nat] => destruct (0 <? n)%nat end; preserve.
Qed.

#[export] Hint Resolve preserves_TestBinary_run : preserves.

Lemma preserves_get_names : preserves_self TestsList.get_names.
Proof. by intros w. Qed.

Lemma preserves_len : preserves_self TestsList.__len__.
Proof. by intros w. Qed.

Lemma preserves___run os b od : preserves_self (TestsList.__run os b od).
Proof. unfold TestsList.__run. preserve. Qed.

#[export] Hint Resolve preserves_get_names preserves_len preserves___run : preserves.

Lemma preserves_check_names bs : preserves_self (TestsList.check_names bs).
Proof.
  induction bs as [|b bs IH]; simpl; preserve.
  match goal with |- context [contains b ?d] => destruct (contains b d) end;
    auto with preserves.
Qed.

Lemma preserves_run_binaries os bs od : ∀ acc,
  preserves_self (TestsList.run_binaries os bs od acc).
Proof.
  induction bs as [|b bs IH]; intros acc; simpl; preserve.
Qed.

#[export] Hint Resolve preserves_check_names preserves_run_binaries : preserves.

Lemma preserves_run os bs od : preserves_self (TestsList.run os bs od).
Proof. unfold TestsList.run. preserve. Qed.

#[export] Hint Resolve preserves_run : preserves.

Lemma preserves_run_all os od : preserves_self (TestsList.run_all os od).
Proof. unfold TestsList.run_all. preserve. Qed.

(** ** What the methods launch and return *)

(** Runs the binds of a method body on a state. *)
Ltac run_M := unfold mbind, M_bind, mret, M_ret, get_self, lift, raise; simpl.

Lemma mapM_strings (l : list value) :
  forallb (λ y, match y with YStr _ => true | _ => false end) l = true →
  mapM (M := result) (λ y, match y with YStr s => Ok s | _ => Raise TypeError end) l
  = Ok (strings_of l).
Proof.
  induction l as [|y l IH]; [done|]. simpl. intros [Hy Hl]%andb_prop.
  destruct y; try done. simpl. rewrite IH by done. done.
Qed.

Lemma strings_of_YStr (l : list string) : strings_of (map YStr l) = l.
Proof. induction l as [|s l IH]; [done|]. simpl. by rewrite IH. Qed.

Lemma is_tests_list_YStr (l : list string) : is_tests_list (YSeq (map YStr l)) = true.
Proof. simpl. induction l as [|s l IH]; [done|]. by simpl. Qed.

Lemma py_join_strings sep (l : list value) :
  forallb (λ y, match y with YStr _ => true | _ => false end) l = true →
  py_join sep (YSeq l) = Ok (String.concat sep (strings_of l)).
Proof.
  intros Hl. unfold py_join, py_iter, mbind, result_bind.
  by rewrite mapM_strings.
Qed.

(** What [TestBinary.run] launches, for a well-formed [excluded_tests]. *)
Lemma TestBinary_run_launches {S} os tb excluded output (w : world S) :
  is_tests_list excluded = true →
  let p := Process [TestBinary.binary_path tb;
                    filter_argument (excluded_of excluded);
                    match output with
                    | Some path => "--gtest_output=" +:+ TestBinary.output_format tb
                                   +:+ ":" +:+ path
                    | None => ""
                    end]
                   (match output with Some _ => DevNull | None => Inherit end) in
  TestBinary.run os tb excluded output w
  = (os (launched w) p, World (self w) (launched w ++ [p])).
Proof.
  intros Hwf. destruct excluded as [| | | |l|]; try done.
  destruct l as [|y l]; [done|].
  unfold TestBinary.run, TestBinary.__format_excluded_tests.
  rewrite py_join_strings by done.
  simpl in Hwf. apply andb_prop in Hwf as [Hy Hl]. by destruct y.
Qed.

Lemma well_formed_getitem (tests : dict value) b test_data :
  well_formed tests = true → getitem b tests = Some test_data →
  ∃ excluded, py_getitem test_data "excluded_tests" = Ok excluded
              ∧ is_tests_list excluded = true.
Proof.
  intros Hwf Hget. apply getitem_elem in Hget.
  unfold well_formed in Hwf. rewrite forallb_forall in Hwf.
  apply list_elem_of_In, Hwf in Hget. unfold is_test_data in Hget. simpl in Hget.
  destruct (py_getitem test_data "excluded_tests") as [e|]; [eauto|done].
Qed.

(** One [__run] of a binary of a well-formed registry launches one child,
    the binary at its path under the tests directory. *)
Lemma run_one os b od (w : world TestsList.t) :
  well_formed (TestsList.tests (self w)) = true →
  contains b (TestsList.tests (self w)) = true →
  ∃ p, TestsList.__run os b od w = (os (launched w) p, World (self w) (launched w ++ [p]))
       ∧ args p !! 0 = Some (os_path_join (TestsList.tests_dir (self w)) b).
Proof.
  intros Hwf Hin. apply getitem_contains in Hin as [test_data Hget].
  destruct (well_formed_getitem _ _ _ Hwf Hget) as (excluded & Hex & Hlist).
  unfold TestsList.__run. run_M.
  rewrite Hget, Hex. rewrite TestBinary_run_launches by done. simpl. eauto.
Qed.

Lemma check_names_ok bs (w : world TestsList.t) :
  Forall (λ b, contains b (TestsList.tests (self w)) = true) bs →
  TestsList.check_names bs w = (Ok (), w).
Proof.
  induction 1 as [|b bs Hb _ IH]; [done|]. simpl. run_M. by rewrite Hb.
Qed.

Lemma check_names_missing pre b post (w : world TestsList.t) :
  Forall (λ b, contains b (TestsList.tests (self w)) = true) pre →
  contains b (TestsList.tests (self w)) = false →
  TestsList.check_names (pre ++ b :: post) w
  = (Raise (not_found b (TestsList.config_path (self w))), w).
Proof.
  intros Hpre Hb. induction Hpre as [|b' pre Hb' _ IH]; simpl; run_M.
  - by rewrite Hb.
  - by rewrite Hb'.
Qed.

(** The first name that is not in a dict, if there is one. *)
Lemma first_missing (tests : dict value) (bs : list string) :
  Exists (λ b, contains b tests = false) bs →
  ∃ pre b post, bs = pre ++ b :: post
                ∧ Forall (λ b, contains b tests = true) pre
                ∧ contains b tests = false.
Proof.
  induction bs as [|b bs IH]; intros Hex; [by apply Exists_nil in Hex|].
  destruct (contains b tests) eqn:Hb.
  - apply Exists_cons in Hex as [Hex|Hex]; [congruence|].
    destruct (IH Hex) as (pre & b' & post & -> & Hpre & Hb').
    exists (b :: pre), b', post. split; [done|]. split; [by constructor|done].
  - exists [], b, bs. split; [done|]. split; [constructor|done].
Qed.

(** The second loop of [run]: one child per name, their exit codes added to
    the accumulator. *)
Lemma run_binaries_sum exit_code bs : ∀ od acc (w : world TestsList.t),
  well_formed (TestsList.tests (self w)) = true →
  Forall (λ b, contains b (TestsList.tests (self w)) = true) bs →
  ∃ children,
    Forall2 (λ b p, args p !! 0 = Some (os_path_join (TestsList.tests_dir (self w)) b))
            bs children
    ∧ TestsList.run_binaries (λ h p, Ok (exit_code h p)) bs od acc w
      = (Ok (acc + total (exit_codes exit_code (launched w) children))%Z,
         World (self w) (launched w ++ children)).
Proof.
  induction bs as [|b bs IH]; intros od acc w Hwf Hall.
  - exists []. split; [constructor|]. run_M.
    rewrite Z.add_0_r, app_nil_r. by destruct w.
  - apply Forall_cons in Hall as [Hb Hall].
    destruct (run_one (λ h p, Ok (exit_code h p)) b od w Hwf Hb) as (p & Hrun & Hpath).
    destruct (IH od (acc + exit_code (launched w) p)%Z
                 (World (self w) (launched w ++ [p])) Hwf Hall)
      as (children & Hpaths & Hrest).
    exists (p :: children). split; [by constructor|].
    simpl. unfold mbind, M_bind. rewrite Hrun. simpl in *. rewrite Hrest.
    rewrite <- app_assoc. simpl. do 2 f_equal. unfold total. lia.
Qed.

Lemma run_sum exit_code bs od (w : world TestsList.t) :
  well_formed (TestsList.tests (self w)) = true →
  Forall (λ b, contains b (TestsList.tests (self w)) = true) bs →
  ∃ children,
    Forall2 (λ b p, args p !! 0 = Some (os_path_join (TestsList.tests_dir (self w)) b))
            bs children
    ∧ TestsList.run (λ h p, Ok (exit_code h p)) bs od w
      = (Ok (total (exit_codes exit_code (launched w) children)),
         World (self w) (launched w ++ children)).
Proof.
  intros Hwf Hall.
  destruct (run_binaries_sum exit_code bs od 0%Z w Hwf Hall) as (children & Hpaths & Hrun).
  exists children. split; [done|].
  unfold TestsList.run, mbind, M_bind. by rewrite check_names_ok, Hrun.
Qed.

(** The names [get_names] returns pass the check of [run]: [run_all] never
    raises for an unknown binary. *)
Lemma check_names_keys (w : world TestsList.t) :
  TestsList.check_names (keys (TestsList.tests (self w))) w = (Ok (), w).
Proof. apply check_names_ok, Forall_forall. intros b. apply contains_keys. Qed.

End RunFacts.

(** * The claims of the specification *)

Import PyDict PyDictContents Spec LoaderFacts RunFacts Examples.

(** ** C1 *)

(** C1, the code against the claim: an entry whose settings hold [to_fix]
    does not get [excluded_tests] set to that sequence.  Loading the
    configuration [{tests: [a_tests, {b_tests: {to_fix: [X.Y]}}]}] raises
    [AttributeError] at line 157, and no registry is built. *)
Theorem to_fix_entry_raises :
  TestsList.__get_test_data (YMap [("b_tests", YMap [("to_fix", YSeq [YStr "X.Y"])])])
  = Raise AttributeError
  ∧ TestsList.__init__ (λ _, Ok scenario) "tests.yml" "/out/tests" = Raise AttributeError.
Proof. split; vm_compute; reflexivity. Qed.

(** ** C2 *)

(** C2: for a non-empty list of excluded identifiers the child gets
    [--gtest_filter=-] followed by the identifiers joined by colons (for
    [A.B], [C.D]: [--gtest_filter=-A.B:C.D]); for an empty list and for
    [None], the argument in its place is the empty string and the child is
    passed no filter argument. *)
Theorem gtest_filter_argument {S : Type} (os : launcher) (tb : TestBinary.t)
    (output : option string) (w : world S) :
  let gtest_output :=
    match output with
    | Some path => "--gtest_output=" +:+ TestBinary.output_format tb +:+ ":" +:+ path
    | None => ""
    end in
  let stdout := match output with Some _ => DevNull | None => Inherit end in
  let child (gtest_filter : string) :=
    Process [TestBinary.binary_path tb; gtest_filter; gtest_output] stdout in
  let launch (p : process) := (os (launched w) p, World (self w) (launched w ++ [p])) in
  (∀ first rest,
     TestBinary.run os tb (YSeq (map YStr (first :: rest))) output w
     = launch (child ("--gtest_filter=" +:+ "-" +:+ String.concat ":" (first :: rest))))
  ∧ TestBinary.run os tb (YSeq [YStr "A.B"; YStr "C.D"]) output w
    = launch (child "--gtest_filter=-A.B:C.D")
  ∧ TestBinary.run os tb (YSeq []) output w = launch (child "")
  ∧ TestBinary.run os tb YNull output w = launch (child "")
  ∧ passes_filter (child "") = false.
Proof.
  intros gtest_output stdout child launch.
  assert (Hlist : ∀ ids, TestBinary.run os tb (YSeq (map YStr ids)) output w
                         = launch (child (filter_argument ids))).
  { intros ids. rewrite TestBinary_run_launches by apply is_tests_list_YStr.
    unfold excluded_of. by rewrite strings_of_YStr. }
  split; [intros first rest; apply Hlist|].
  split; [apply (Hlist ["A.B"; "C.D"])|].
  split; [apply (Hlist [])|].
  split; [reflexivity|].
  unfold passes_filter, child, gtest_output. by destruct output.
Qed.

(** ** C3 *)

(** C3: when every requested name is in the registry (a well-formed one, as
    every loaded registry is, see [init_well_formed]) and every launch
    yields an exit code, [run] launches one child per name, in order, each
    the binary of that name under the tests directory, and returns the sum
    of their exit codes. *)
Theorem run_returns_sum (exit_code : list process → process → Z)
    (binaries : list string) (output_dir : option string) (w : world TestsList.t) :
  well_formed (TestsList.tests (self w)) = true →
  Forall (λ b, contains b (TestsList.tests (self w)) = true) binaries →
  ∃ children,
    Forall2 (λ b p, args p !! 0 = Some (os_path_join (TestsList.tests_dir (self w)) b))
            binaries children
    ∧ TestsList.run (λ h p, Ok (exit_code h p)) binaries output_dir w
      = (Ok (total (exit_codes exit_code (launched w) children)),
         World (self w) (launched w ++ children)).
Proof. apply run_sum. Qed.

(** [run([b1, b2], None)] where [b1] exits 0 and [b2] exits 2 returns 2. *)
Lemma run_returns_sum_witness :
  (∃ children,
     Forall2 (λ b p, args p !! 0 = Some (os_path_join "/out/tests" b))
             ["b1"; "b2"] children
     ∧ TestsList.run (λ h p, Ok (exits_0_2 h p)) ["b1"; "b2"] None (World two_binaries [])
       = (Ok (total (exit_codes exits_0_2 [] children)), World two_binaries ([] ++ children)))
  ∧ (TestsList.run (λ h p, Ok (exits_0_2 h p)) ["b1"; "b2"] None (World two_binaries [])).1
    = Ok 2%Z.
Proof.
  split; [|reflexivity].
  apply (run_returns_sum exits_0_2 ["b1"; "b2"] None (World two_binaries []));
    [reflexivity|].
  repeat constructor.
Defined.

(** A suite of N binaries each exiting 1 returns N. *)
Lemma run_all_exit_1 (binaries : list string) (output_dir : option string)
    (w : world TestsList.t) :
  well_formed (TestsList.tests (self w)) = true →
  Forall (λ b, contains b (TestsList.tests (self w)) = true) binaries →
  (TestsList.run (λ _ _, Ok 1%Z) binaries output_dir w).1
  = Ok (Z.of_nat (length binaries)).
Proof.
  intros Hwf Hall.
  destruct (run_sum (λ _ _, 1%Z) binaries output_dir w Hwf Hall) as (children & Hpaths & ->).
  simpl. f_equal. apply Forall2_length in Hpaths. rewrite Hpaths. clear.
  generalize (launched w). induction children as [|p ps IH]; intros h; [done|].
  simpl. rewrite IH. lia.
Qed.

(** ** C4 *)

(** C4: when some requested name is not in the registry, [run] raises the
    exception naming the first such name, having launched nothing: the
    state, the list of launched children included, is as before. *)
Theorem run_unknown_binary (os : launcher) (binaries : list string)
    (output_dir : option string) (w : world TestsList.t) :
  Exists (λ b, contains b (TestsList.tests (self w)) = false) binaries →
  ∃ pre b post,
    binaries = pre ++ b :: post
    ∧ Forall (λ b, contains b (TestsList.tests (self w)) = true) pre
    ∧ contains b (TestsList.tests (self w)) = false
    ∧ TestsList.run os binaries output_dir w
      = (Raise (not_found b (TestsList.config_path (self w))), w).
Proof.
  intros Hex. destruct (first_missing _ _ Hex) as (pre & b & post & -> & Hpre & Hb).
  exists pre, b, post. repeat split; [done..|].
  unfold TestsList.run, mbind, M_bind. by rewrite check_names_missing.
Qed.

(** [run(["b1", "missing", "b2"])] launches nothing, though [b1] is known. *)
Lemma run_unknown_binary_witness :
  ∃ pre b post,
    ["b1"; "missing"; "b2"] = pre ++ b :: post
    ∧ Forall (λ b, contains b (TestsList.tests two_binaries) = true) pre
    ∧ contains b (TestsList.tests two_binaries) = false
    ∧ TestsList.run (λ h p, Ok (exits_0_2 h p)) ["b1"; "missing"; "b2"] None
        (World two_binaries [])
      = (Raise (not_found b "tests.yml"), World two_binaries []).
Proof.
  apply (run_unknown_binary (λ h p, Ok (exits_0_2 h p)) ["b1"; "missing"; "b2"] None
           (World two_binaries [])).
  apply Exists_cons_tl, Exists_cons_hd. reflexivity.
Defined.

(** ** C5 *)

(** C5: with an output directory the child's standard output goes to the
    null device and its arguments hold [--gtest_output=xml:] followed by
    the path [results_<name>.xml] joined to the directory, which is
    [<dir>/results_<name>.xml] unless the directory is empty or ends in a
    slash; without one the child inherits the standard output and is passed
    no output argument. *)
Theorem gtest_output_argument {S : Type} (os : launcher) (binary_path binary_name : string)
    (excluded : value) (w : world S) :
  is_tests_list excluded = true →
  let test_binary := TestBinary.__init__ binary_path in
  let results := "results_" +:+ binary_name +:+ ".xml" in
  let gtest_filter := filter_argument (excluded_of excluded) in
  (∀ output_dir,
     let child := Process [binary_path; gtest_filter;
                           "--gtest_output=xml:" +:+ os_path_join output_dir results]
                          DevNull in
     TestBinary.run os test_binary excluded
       (TestsList.__get_output_path binary_name (Some output_dir)) w
     = (os (launched w) child, World (self w) (launched w ++ [child])))
  ∧ (∀ output_dir,
       output_dir ≠ "" → endswith_slash output_dir = false →
       os_path_join output_dir results = output_dir +:+ "/" +:+ results)
  ∧ (let child := Process [binary_path; gtest_filter; ""] Inherit in
     TestBinary.run os test_binary excluded (TestsList.__get_output_path binary_name None) w
     = (os (launched w) child, World (self w) (launched w ++ [child]))
     ∧ passes_output child = false).
Proof.
  intros Hwf test_binary results gtest_filter. split; [|split; [|split]].
  - intros output_dir child. unfold TestsList.__get_output_path.
    by rewrite TestBinary_run_launches.
  - intros output_dir Hne Hslash. unfold os_path_join. simpl.
    rewrite Hslash. by destruct (String.eqb_spec output_dir "").
  - unfold TestsList.__get_output_path. by rewrite TestBinary_run_launches.
  - unfold passes_output, gtest_filter, filter_argument. simpl.
    by destruct (excluded_of excluded).
Qed.

(** [b1], without exclusions, results under [/out/results]. *)
Lemma gtest_output_argument_witness :
  is_tests_list YNull = true
  ∧ TestBinary.run (S := ()) (λ h p, Ok (exits_0_2 h p)) (TestBinary.__init__ "/out/tests/b1")
      YNull (TestsList.__get_output_path "b1" (Some "/out/results")) (World () [])
    = (Ok 0%Z,
       World () [Process ["/out/tests/b1"; "";
                          "--gtest_output=xml:/out/results/results_b1.xml"] DevNull]).
Proof.
  split; [reflexivity|].
  exact (proj1 (gtest_output_argument (S := ()) (λ h p, Ok (exits_0_2 h p))
                  "/out/tests/b1" "b1" YNull (World () []) eq_refl) "/out/results").
Defined.

(** ** C6 *)

(** C6 as stated fails: for [{tests: [a, b, c]}] the names come back as
    [a, c, b], the order of the slots that the hashes of the three strings
    select in the dict's table of eight, not the order of insertion.  (The
    slot of a key in an empty table of eight is given by the low three bits
    of its hash, which do not depend on the width of a [long].) *)
Lemma get_names_not_insertion_order :
  ∃ obj,
    TestsList.__init__ (λ _, Ok abc) "tests.yml" "/out/tests" = Ok obj
    ∧ (TestsList.get_names (World obj [])).1 = Ok ["a"; "c"; "b"]
    ∧ first_seen ["a"; "b"; "c"] = ["a"; "b"; "c"]
    ∧ Ok (A := list string) ["a"; "c"; "b"] ≠ Ok (first_seen ["a"; "b"; "c"]).
Proof.
  eexists. split; [vm_compute; reflexivity|].
  split; [vm_compute; reflexivity|]. split; [reflexivity|].
  vm_compute. discriminate.
Qed.

(** C6, amended: when the configuration loads, [get_names] returns each
    distinct binary name of the entries exactly once, whatever the
    duplicates, and the registry holds for each name the settings of its
    last entry; the names come in the iteration order of the dict, a
    rearrangement of the order in which they were first seen. *)
Theorem get_names_distinct (load : string → result value) (config_path tests_dir : string)
    (config_data : value) (entries : list value) (w : world TestsList.t) :
  load config_path = Ok config_data →
  py_getitem config_data "tests" = Ok (YSeq entries) →
  TestsList.__init__ load config_path tests_dir = Ok (self w) →
  ∃ data names,
    mapM TestsList.__get_test_data entries = Ok data
    ∧ TestsList.get_names w = (Ok names, w)
    ∧ names = slot_order (first_seen (map fst data))
    ∧ names ≡ₚ first_seen (map fst data)
    ∧ NoDup names
    ∧ (∀ n, n ∈ names ↔ n ∈ map fst data)
    ∧ (∀ n, n ∈ names →
         is_Some (last_settings n data)
         ∧ getitem n (TestsList.tests (self w)) = last_settings n data).
Proof.
  intros Hload Htests Hinit.
  destruct (init_data _ _ _ _ _ _ Hload Htests Hinit) as (data & Hdata & Hobj).
  assert (Hkeys : map fst (TestsList.tests (self w)) = first_seen (map fst data)).
  { rewrite Hobj. simpl. rewrite keys_set_all. simpl.
    generalize (first_seen (map fst data)). intros l.
    induction l as [|x l IH]; [done|].
    rewrite filter_cons, decide_True by apply not_elem_of_nil. by rewrite IH. }
  assert (Hperm : keys (TestsList.tests (self w)) ≡ₚ first_seen (map fst data)).
  { by rewrite keys_perm, Hkeys. }
  exists data, (keys (TestsList.tests (self w))).
  split; [done|]. split; [done|].
  split; [unfold keys; by rewrite Hkeys|]. split; [done|].
  split; [rewrite Hperm; apply first_seen_NoDup|].
  split; [intros n; rewrite Hperm; apply first_seen_elem|].
  intros n Hn. rewrite Hperm, first_seen_elem in Hn.
  apply last_settings_elem in Hn as [v Hv]. split; [by rewrite Hv|].
  rewrite Hobj. simpl. rewrite getitem_set_all. by rewrite Hv.
Qed.

(** [{tests: [a, {b: null}, a]}]: two names, each once. *)
Lemma get_names_distinct_witness :
  ∃ data names,
    mapM TestsList.__get_test_data [YStr "b1"; YMap [("b2", YNull)]; YStr "b1"] = Ok data
    ∧ TestsList.get_names (World two_binaries []) = (Ok names, World two_binaries [])
    ∧ names = slot_order (first_seen (map fst data))
    ∧ names ≡ₚ first_seen (map fst data)
    ∧ NoDup names
    ∧ (∀ n, n ∈ names ↔ n ∈ map fst data)
    ∧ (∀ n, n ∈ names →
         is_Some (last_settings n data)
         ∧ getitem n (TestsList.tests two_binaries) = last_settings n data).
Proof.
  apply (get_names_distinct
           (λ _, Ok (YMap [("tests", YSeq [YStr "b1"; YMap [("b2", YNull)]; YStr "b1"])]))
           "tests.yml" "/out/tests"
           (YMap [("tests", YSeq [YStr "b1"; YMap [("b2", YNull)]; YStr "b1"])])
           [YStr "b1"; YMap [("b2", YNull)]; YStr "b1"]
           (World two_binaries [])); vm_compute; reflexivity.
Defined.

(** ** C7 *)

(** C7: [get_names] returns the names and leaves the state alone, and
    [run_all] does what [run] does on those names: same result, same
    children launched. *)
Theorem run_all_runs_names (os : launcher) (output_dir : option string)
    (w : world TestsList.t) :
  ∃ names,
    TestsList.get_names w = (Ok names, w)
    ∧ TestsList.run_all os output_dir w = TestsList.run os names output_dir w.
Proof. by eexists. Qed.

(** ** C8 *)

(** C8: a bare string and the mapping of that string to [None] yield the
    same name and the same record, whose [excluded_tests] is [None]. *)
Theorem shorthand_same_policy (name : string) :
  TestsList.__get_test_data (YStr name) = TestsList.__get_test_data (YMap [(name, YNull)])
  ∧ TestsList.__get_test_data (YStr name) = Ok (name, no_exclusions)
  ∧ py_getitem no_exclusions "excluded_tests" = Ok YNull.
Proof.
  rewrite get_test_data_shorthand, get_test_data_null. done.
Qed.

(** ** C9 *)

(** C9: no method of [TestsList] assigns to the object: after
    [get_names], [__len__], [__run], [run], [run_only] and [run_all],
    whether they return or raise, [self] (registry, config path and tests
    directory) is what it was; so a second run finds what the first did. *)
Theorem registry_unchanged (os : launcher) (w : world TestsList.t) :
  self (TestsList.get_names w).2 = self w
  ∧ self (TestsList.__len__ w).2 = self w
  ∧ (∀ binary_name output_dir,
       self (TestsList.__run os binary_name output_dir w).2 = self w)
  ∧ (∀ binaries output_dir, self (TestsList.run os binaries output_dir w).2 = self w)
  ∧ (∀ binary_name output_dir,
       self (TestsList.run_only os binary_name output_dir w).2 = self w)
  ∧ (∀ output_dir, self (TestsList.run_all os output_dir w).2 = self w)
  ∧ (∀ binaries output_dir binaries' output_dir',
       self (TestsList.run os binaries' output_dir'
               (TestsList.run os binaries output_dir w).2).2 = self w).
Proof.
  repeat split; try done; intros.
  - apply preserves___run.
  - apply preserves_run.
  - apply preserves_run.
  - apply preserves_run_all.
  - by rewrite !preserves_run.
Qed.

(** ** C10 *)

(** C10: [run] of no names returns 0 and launches nothing. *)
Theorem run_nothing (os : launcher) (output_dir : option string) (w : world TestsList.t) :
  TestsList.run os [] output_dir w = (Ok 0%Z, w).
Proof. reflexivity. Qed.

(** * Further facts *)
Module FurtherFacts.
Import PyDict PyDictContents Spec LoaderFacts RunFacts Expected TestsList.

(** ** Loading *)

Lemma filter_not_in_nil (l : list string) : filter (λ x, x ∉ []) l = l.
Proof.
  induction l as [|x l IH]; [done|].
  rewrite filter_cons, decide_True by apply not_elem_of_nil. by rewrite IH.
Qed.

(** The keys of a registry filled from nothing: the distinct names, by
    first occurrence. *)
Lemma keys_set_all_empty (data : list (string * value)) :
  map fst (set_all data []) = first_seen (map fst data).
Proof. rewrite keys_set_all. simpl. apply filter_not_in_nil. Qed.

Lemma first_seen_length (names : list string) : length (first_seen names) ≤ length names.
Proof.
  induction names as [|n names IH]; simpl; [done|].
  pose proof (length_filter (λ x, x ≠ n) (first_seen names)). lia.
Qed.

Lemma mapM_app_raise {A B} (f : A → result B) pre bad post data e :
  mapM f pre = Ok data → f bad = Raise e → mapM f (pre ++ bad :: post) = Raise e.
Proof.
  revert data. induction pre as [|x pre IH]; intros data; simpl.
  - intros _ ->. done.
  - destruct (f x) as [y|e']; [|done]. simpl.
    destruct (mapM f pre) as [ys|e'] eqn:Hpre; [|done]. simpl.
    intros _ Hbad. by rewrite (IH ys).
Qed.

Lemma mapM_shorthand (names : list string) :
  mapM __get_test_data (map YStr names) = Ok (map (λ n, (n, no_exclusions)) names).
Proof.
  induction names as [|n names IH]; [done|].
  cbn [map mapM]. rewrite get_test_data_shorthand. simpl.
  by rewrite IH.
Qed.

(** ** Running *)

(** One [__run] of a known binary of a well-formed registry launches
    [child_of] and returns what the launch yields. *)
Lemma run_one_child os b od (w : world TestsList.t) :
  well_formed (TestsList.tests (self w)) = true →
  contains b (TestsList.tests (self w)) = true →
  TestsList.__run os b od w
  = (os (launched w) (child_of (self w) od b),
     World (self w) (launched w ++ [child_of (self w) od b])).
Proof.
  intros Hwf Hin. apply getitem_contains in Hin as [test_data Hget].
  destruct (well_formed_getitem _ _ _ Hwf Hget) as (excluded & Hex & Hlist).
  unfold TestsList.__run, child_of. run_M.
  rewrite Hget, Hex. rewrite TestBinary_run_launches by done.
  by destruct od.
Qed.

(** The second loop of [run] under any launcher: the children are launched
    in order while the launches yield exit codes. *)
Lemma run_binaries_succeed os bs : ∀ od acc codes (w : world TestsList.t),
  well_formed (TestsList.tests (self w)) = true →
  Forall (λ b, contains b (TestsList.tests (self w)) = true) bs →
  succeed os (launched w) (map (child_of (self w) od) bs) codes →
  TestsList.run_binaries os bs od acc w
  = (Ok (acc + total codes)%Z,
     World (self w) (launched w ++ map (child_of (self w) od) bs)).
Proof.
  induction bs as [|b bs IH]; intros od acc codes w Hwf Hall Hcodes.
  - destruct codes; [|done]. run_M. rewrite Z.add_0_r, app_nil_r. by destruct w.
  - destruct codes as [|c codes]; [done|]. destruct Hcodes as [Hc Hcodes].
    apply Forall_cons in Hall as [Hb Hall].
    simpl. unfold mbind, M_bind. rewrite run_one_child, Hc by done.
    rewrite (IH od _ codes); [|done..].
    simpl. rewrite <- app_assoc. do 2 f_equal. unfold total. simpl. lia.
Qed.

(** The same loop when a launch raises: the loop ends there. *)
Lemma run_binaries_raise os pre : ∀ b post od acc codes e (w : world TestsList.t),
  well_formed (TestsList.tests (self w)) = true →
  Forall (λ b, contains b (TestsList.tests (self w)) = true) (pre ++ [b]) →
  succeed os (launched w) (map (child_of (self w) od) pre) codes →
  os (launched w ++ map (child_of (self w) od) pre) (child_of (self w) od b) = Raise e →
  TestsList.run_binaries os (pre ++ b :: post) od acc w
  = (Raise e,
     World (self w) (launched w ++ map (child_of (self w) od) pre ++ [child_of (self w) od b])).
Proof.
  induction pre as [|b' pre IH]; intros b post od acc codes e w Hwf Hall Hcodes He.
  - simpl in *. rewrite app_nil_r in He. apply Forall_cons in Hall as [Hb _].
    unfold mbind, M_bind. by rewrite run_one_child, He.
  - destruct codes as [|c codes]; [done|]. destruct Hcodes as [Hc Hcodes].
    simpl in Hall. apply Forall_cons in Hall as [Hb' Hall].
    simpl. unfold mbind, M_bind. rewrite run_one_child, Hc by done.
    rewrite (IH b post od _ codes e); [|done..| ].
    + simpl. by rewrite <- app_assoc.
    + simpl in *. by rewrite <- app_assoc.
Qed.

Lemma succeed_total exit_code children : ∀ history,
  succeed (λ h p, Ok (exit_code h p)) history children
          (exit_codes exit_code history children).
Proof. induction children as [|p ps IH]; intros h; simpl; [done|]. by split. Qed.

Lemma exit_codes_app exit_code xs ys : ∀ h,
  exit_codes exit_code h (xs ++ ys)
  = exit_codes exit_code h xs ++ exit_codes exit_code (h ++ xs) ys.
Proof.
  induction xs as [|x xs IH]; intros h; simpl.
  - by rewrite app_nil_r.
  - rewrite IH, <- app_assoc. done.
Qed.

Lemma total_app xs ys : total (xs ++ ys) = (total xs + total ys)%Z.
Proof. induction xs as [|x xs IH]; simpl; [done|]. rewrite IH. lia. Qed.

(** [run] of known names of a well-formed registry, every launch yielding an
    exit code: the children and the result. *)
Lemma run_children exit_code bs od (w : world TestsList.t) :
  well_formed (TestsList.tests (self w)) = true →
  Forall (λ b, contains b (TestsList.tests (self w)) = true) bs →
  TestsList.run (λ h p, Ok (exit_code h p)) bs od w
  = (Ok (total (exit_codes exit_code (launched w) (map (child_of (self w) od) bs))),
     World (self w) (launched w ++ map (child_of (self w) od) bs)).
Proof.
  intros Hwf Hall. unfold TestsList.run, mbind, M_bind.
  rewrite check_names_ok by done.
  rewrite (run_binaries_succeed _ bs od 0%Z _ w Hwf Hall (succeed_total _ _ _)).
  done.
Qed.

Lemma mapM_strings_or_raise (l : list value) :
  let f := λ y, match y with YStr s => Ok s | _ => Raise TypeError end in
  mapM (M := result) f l = Ok (strings_of l) ∨ mapM (M := result) f l = Raise TypeError.
Proof.
  induction l as [|y l IH]; [by left|]. simpl.
  destruct y; simpl; try by right.
  destruct IH as [-> | ->]; [by left|by right].
Qed.

Lemma mapM_YStr (l : list string) :
  mapM (M := result) (λ y, match y with YStr s => Ok s | _ => Raise TypeError end)
       (map YStr l) = Ok l.
Proof. induction l as [|s l IH]; [done|]. simpl. by rewrite IH. Qed.

(** [py_join] returns a string or raises [TypeError]. *)
Lemma py_join_cases sep (obj : value) :
  (∃ s, py_join sep obj = Ok s) ∨ py_join sep obj = Raise TypeError.
Proof.
  unfold py_join. destruct obj as [| | |s|l|items]; simpl; try by right.
  - rewrite mapM_YStr. eauto.
  - destruct (mapM_strings_or_raise l) as [-> | ->]; eauto.
  - rewrite mapM_YStr. eauto.
Qed.

(** A known name or the first unknown one. *)
Lemma known_or_missing (tests : dict value) (bs : list string) :
  Forall (λ b, contains b tests = true) bs ∨ Exists (λ b, contains b tests = false) bs.
Proof.
  induction bs as [|b bs [IH|IH]].
  - left. constructor.
  - destruct (contains b tests) eqn:Hb.
    + left. by constructor.
    + right. by apply Exists_cons_hd.
  - right. by apply Exists_cons_tl.
Qed.

(** Under any launcher the second loop of [run] launches the children of an
    initial part of the names. *)
Lemma run_binaries_prefix os bs : ∀ od acc (w : world TestsList.t),
  well_formed (TestsList.tests (self w)) = true →
  Forall (λ b, contains b (TestsList.tests (self w)) = true) bs →
  ∃ k, (TestsList.run_binaries os bs od acc w).2
       = World (self w) (launched w ++ map (child_of (self w) od) (take k bs)).
Proof.
  induction bs as [|b bs IH]; intros od acc w Hwf Hall.
  - exists 0. simpl. rewrite app_nil_r. by destruct w.
  - apply Forall_cons in Hall as [Hb Hall].
    simpl. unfold mbind, M_bind. rewrite run_one_child by done.
    destruct (os (launched w) (child_of (self w) od b)) as [c|e].
    + destruct (IH od (acc + c)%Z (World (self w) (launched w ++ [child_of (self w) od b]))
                  Hwf Hall) as [k Hk].
      exists (S k). rewrite Hk. simpl. by rewrite <- app_assoc.
    + by exists 1.
Qed.

Lemma run_prefix os bs od (w : world TestsList.t) :
  well_formed (TestsList.tests (self w)) = true →
  ∃ k, (TestsList.run os bs od w).2
       = World (self w) (launched w ++ map (child_of (self w) od) (take k bs)).
Proof.
  intros Hwf. destruct (known_or_missing (TestsList.tests (self w)) bs) as [Hall|Hex].
  - destruct (run_binaries_prefix os bs od 0%Z w Hwf Hall) as [k Hk].
    exists k. unfold TestsList.run, mbind, M_bind. by rewrite check_names_ok.
  - destruct (first_missing _ _ Hex) as (pre & b & post & -> & Hpre & Hb).
    exists 0. unfold TestsList.run, mbind, M_bind.
    rewrite check_names_missing by done. simpl. rewrite app_nil_r. by destruct w.
Qed.

(** In a loaded registry every value is the starting record. *)
Lemma init_values load config_path tests_dir obj b test_data :
  TestsList.__init__ load config_path tests_dir = Ok obj →
  getitem b (TestsList.tests obj) = Some test_data → test_data = no_exclusions.
Proof.
  unfold TestsList.__init__, TestsList.__get_tests_list.
  destruct (load config_path) as [config_data|e]; [|done]. simpl.
  destruct (py_getitem config_data "tests") as [entries|e]; [|done]. simpl.
  destruct (py_iter entries) as [items|e]; [|done]. simpl.
  rewrite fill_tests_list_data.
  destruct (mapM TestsList.__get_test_data items) as [data|e] eqn:Hdata; [|done]. simpl.
  intros [= <-] Hget%getitem_elem. simpl in Hget.
  assert (Hall : Forall (λ kv : string * value, kv.2 = no_exclusions) (set_all data [])).
  { apply (set_all_values (λ v, v = no_exclusions)); [|constructor].
    apply mapM_Forall2 in Hdata. clear -Hdata.
    induction Hdata as [|entry [n v] items data Hentry _ IH]; constructor; [|done].
    by apply get_test_data_ok in Hentry. }
  rewrite Forall_forall in Hall. exact (Hall _ Hget).
Qed.

(** The child of a binary of a loaded registry has no filter. *)
Lemma child_of_loaded load config_path tests_dir obj od b :
  TestsList.__init__ load config_path tests_dir = Ok obj →
  args (child_of obj od b) !! 1 = Some "".
Proof.
  intros Hinit. unfold child_of.
  destruct (getitem b (TestsList.tests obj)) as [test_data|] eqn:Hget; [|done].
  by rewrite (init_values _ _ _ _ _ _ Hinit Hget).
Qed.

Lemma prefix_app (a b : string) : String.prefix a (a +:+ b) = true.
Proof.
  induction a as [|c a IH]; simpl; [by destruct b|].
  by destruct (ascii_dec c c).
Qed.

(** ** The command line *)

Import Cli.

Section Facts.
Variable abspath : string → string.
Variables isfile isdir : string → bool.

Lemma parse_args_spec (args args' : Namespace) :
  parse_args abspath isfile isdir args = Parsed args'
  ↔ (command args = Command.RUN → tests_dir args ≠ None)
    ∧ isfile (abspath (config args)) = true
    ∧ (∀ dir, tests_dir args = Some dir → isdir (abspath dir) = true)
    ∧ (∀ dir, output_dir args = Some dir → isdir (abspath dir) = true)
    ∧ args' = absolutized abspath args.
Proof.
  unfold parse_args, absolutized. destruct args as [cmd bin cfg td od]. simpl.
  destruct (String.eqb_spec cmd Command.RUN) as [Hcmd|Hcmd]; simpl.
  - destruct td as [td|]; simpl.
    + destruct (isfile (abspath cfg)) eqn:Hf; simpl; [|split; [done|by intros (_ & ? & _)]].
      destruct (isdir (abspath td)) eqn:Htd; simpl;
        [|split; [done|intros (_ & _ & H & _); by rewrite (H td) in Htd]].
      destruct od as [od|]; simpl.
      * destruct (isdir (abspath od)) eqn:Hod; simpl;
          [|split; [done|intros (_ & _ & _ & H & _); by rewrite (H od) in Hod]].
        split; [intros [= <-]|intros (_ & _ & _ & _ & ->); done].
        repeat split; try done; by intros ? [= <-].
      * split; [intros [= <-]|intros (_ & _ & _ & _ & ->); done].
        repeat split; try done; by intros ? [= <-].
    + split; [done|]. intros (H & _). by destruct (H Hcmd).
  - destruct (isfile (abspath cfg)) eqn:Hf; simpl; [|split; [done|by intros (_ & ? & _)]].
    destruct td as [td|]; simpl.
    + destruct (isdir (abspath td)) eqn:Htd; simpl;
        [|split; [done|intros (_ & _ & H & _); by rewrite (H td) in Htd]].
      destruct od as [od|]; simpl.
      * destruct (isdir (abspath od)) eqn:Hod; simpl;
          [|split; [done|intros (_ & _ & _ & H & _); by rewrite (H od) in Hod]].
        split; [intros [= <-]|intros (_ & _ & _ & _ & ->); done].
        repeat split; try done; by intros ? [= <-].
      * split; [intros [= <-]|intros (_ & _ & _ & _ & ->); done].
        repeat split; try done; by intros ? [= <-].
    + destruct od as [od|]; simpl.
      * destruct (isdir (abspath od)) eqn:Hod; simpl;
          [|split; [done|intros (_ & _ & _ & H & _); by rewrite (H od) in Hod]].
        split; [intros [= <-]|intros (_ & _ & _ & _ & ->); done].
        repeat split; try done; by intros ? [= <-].
      * split; [intros [= <-]|intros (_ & _ & _ & _ & ->); done].
        repeat split; try done.
Qed.

End Facts.

End FurtherFacts.

(** * Further properties of the code *)

Import Expected FurtherExamples FurtherFacts.

(** ** Entries of the configuration *)

(** X1: an entry is accepted exactly when it is a string, or a mapping whose
    first value is [None] or something in which ['to_fix'] can be looked for
    and is not found; the name is the string, or the first key of the
    mapping (further keys are dropped), and the record holds no exclusions. *)
Theorem entry_accepted_iff (entry : value) (n : string) (v : value) :
  TestsList.__get_test_data entry = Ok (n, v)
  ↔ v = no_exclusions
    ∧ (entry = YStr n
       ∨ ∃ configs rest,
           entry = YMap ((n, configs) :: rest)
           ∧ (configs = YNull ∨ py_in "to_fix" configs = Ok false)).
Proof.
  split.
  - intros Hok. split; [by eapply get_test_data_ok|].
    destruct entry as [| | |s|l|[|[k configs] rest]]; try done.
    + rewrite get_test_data_shorthand in Hok. injection Hok as -> _. by left.
    + right. exists configs, rest. revert Hok.
      unfold TestsList.__get_test_data. simpl. rewrite String.eqb_refl. simpl.
      destruct configs as [|b|z|s|l|settings]; simpl; try done.
      * intros [= -> _]. split; [done|by left].
      * destruct (is_substring "to_fix" s); simpl; [done|].
        intros [= -> _]. split; [done|by right].
      * destruct (existsb _ l); simpl; [done|]. intros [= -> _]. split; [done|by right].
      * destruct (contains "to_fix" settings); simpl.
        -- by destruct (getitem "to_fix" settings).
        -- intros [= -> _]. split; [done|by right].
  - intros [-> [->|(configs & rest & -> & Hconfigs)]].
    + apply get_test_data_shorthand.
    + unfold TestsList.__get_test_data. simpl. rewrite String.eqb_refl. simpl.
      destruct Hconfigs as [->|Hin]; [done|].
      destruct configs; try done; by rewrite Hin.
Qed.

(** X2: a rejected entry raises one of four exceptions: [AssertionError]
    when it is neither a string nor a mapping, [IndexError] when it is the
    empty mapping, [TypeError] when its first value is not [None] and either
    cannot be searched or is a string or list holding ['to_fix'], and
    [AttributeError] when its first value is a mapping with the key
    ['to_fix']. *)
Theorem entry_rejected_cases (entry : value) (e : exn) :
  TestsList.__get_test_data entry = Raise e →
  (e = AssertionError ∧ (∀ s, entry ≠ YStr s) ∧ (∀ items, entry ≠ YMap items))
  ∨ (e = IndexError ∧ entry = YMap [])
  ∨ (e = TypeError
     ∧ ∃ n configs rest,
         entry = YMap ((n, configs) :: rest)
         ∧ (∀ settings, configs ≠ YMap settings)
         ∧ (py_in "to_fix" configs = Raise TypeError ∨ py_in "to_fix" configs = Ok true))
  ∨ (e = AttributeError
     ∧ ∃ n settings rest,
         entry = YMap ((n, YMap settings) :: rest) ∧ contains "to_fix" settings = true).
Proof.
  destruct entry as [|b|z|s|l|[|[k configs] rest]].
  1-3, 5: intros [= <-]; left; done.
  - by rewrite get_test_data_shorthand.
  - intros [= <-]. right. by left.
  - unfold TestsList.__get_test_data. simpl. rewrite String.eqb_refl. simpl.
    destruct configs as [|b|z|s|l|settings]; simpl; try done.
    + intros [= <-]. do 2 right. left. split; [done|].
      exists k, (YBool b), rest. split; [done|]. split; [done|by left].
    + intros [= <-]. do 2 right. left. split; [done|].
      exists k, (YInt z), rest. split; [done|]. split; [done|by left].
    + destruct (is_substring "to_fix" s) eqn:Hs; simpl; [|done].
      intros [= <-]. do 2 right. left. split; [done|].
      exists k, (YStr s), rest. split; [done|]. split; [done|]. right. simpl. by rewrite Hs.
    + destruct (existsb _ l) eqn:Hl; simpl; [|done].
      intros [= <-]. do 2 right. left. split; [done|].
      exists k, (YSeq l), rest. split; [done|]. split; [done|]. right. simpl. by rewrite Hl.
    + destruct (contains "to_fix" settings) eqn:Hin; simpl; [|done].
      destruct (getitem_contains _ _ Hin) as [to_fix ->]. simpl.
      intros [= <-]. do 3 right. split; [done|]. by exists k, settings, rest.
Qed.

Lemma entry_rejected_cases_witness :
  (TypeError = AssertionError
   ∧ (∀ s, YMap [("b_tests", YStr "to_fix later")] ≠ YStr s)
   ∧ (∀ items, YMap [("b_tests", YStr "to_fix later")] ≠ YMap items))
  ∨ (TypeError = IndexError ∧ YMap [("b_tests", YStr "to_fix later")] = YMap [])
  ∨ (TypeError = TypeError
     ∧ ∃ n configs rest,
         YMap [("b_tests", YStr "to_fix later")] = YMap ((n, configs) :: rest)
         ∧ (∀ settings, configs ≠ YMap settings)
         ∧ (py_in "to_fix" configs = Raise TypeError ∨ py_in "to_fix" configs = Ok true))
  ∨ (TypeError = AttributeError
     ∧ ∃ n settings rest,
         YMap [("b_tests", YStr "to_fix later")] = YMap ((n, YMap settings) :: rest)
         ∧ contains "to_fix" settings = true).
Proof.
  apply (entry_rejected_cases (YMap [("b_tests", YStr "to_fix later")]) TypeError).
  reflexivity.
Defined.

(** ** The loading of a document *)

(** X3: loading raises the exception of the first rejected entry, whatever
    follows it. *)
Theorem load_stops_at_first_rejected (load : string → result value)
    (config_path tests_dir : string) (config_data : value) (pre : list value)
    (bad : value) (post : list value) (data : list (string * value)) (e : exn) :
  load config_path = Ok config_data →
  py_getitem config_data "tests" = Ok (YSeq (pre ++ bad :: post)) →
  mapM TestsList.__get_test_data pre = Ok data →
  TestsList.__get_test_data bad = Raise e →
  TestsList.__init__ load config_path tests_dir = Raise e.
Proof.
  intros Hload Htests Hpre Hbad. unfold TestsList.__init__, TestsList.__get_tests_list.
  rewrite Hload. simpl. rewrite Htests. simpl. rewrite fill_tests_list_data.
  by rewrite (mapM_app_raise _ _ _ _ _ _ Hpre Hbad).
Qed.

(** [{tests: [a_tests, 7, {}]}]: the integer is rejected, the empty mapping
    not reached. *)
Lemma load_stops_at_first_rejected_witness :
  TestsList.__init__ (λ _, Ok (YMap [("tests", YSeq ([YStr "a_tests"] ++ YInt 7 :: [YMap []]))]))
    "tests.yml" "/out/tests"
  = Raise AssertionError.
Proof.
  apply (load_stops_at_first_rejected _ "tests.yml" "/out/tests"
           (YMap [("tests", YSeq ([YStr "a_tests"] ++ YInt 7 :: [YMap []]))])
           [YStr "a_tests"] (YInt 7) [YMap []] [("a_tests", no_exclusions)]);
    vm_compute; reflexivity.
Defined.

(** X4: a document that is not a mapping (an empty file gives [None]) fails
    with [TypeError], a mapping without the key [tests] with [KeyError], a
    [tests] value that is [None], a boolean or a number with [TypeError];
    an error of reading or parsing is passed on. *)
Theorem document_errors (load : string → result value) (config_path tests_dir : string) :
  (∀ e, load config_path = Raise e →
        TestsList.__init__ load config_path tests_dir = Raise e)
  ∧ (∀ config_data, load config_path = Ok config_data →
       (∀ items, config_data ≠ YMap items) →
       TestsList.__init__ load config_path tests_dir = Raise TypeError)
  ∧ (∀ items, load config_path = Ok (YMap items) →
       contains "tests" items = false →
       TestsList.__init__ load config_path tests_dir = Raise KeyError)
  ∧ (∀ items entries, load config_path = Ok (YMap items) →
       getitem "tests" items = Some entries →
       (entries = YNull ∨ (∃ b, entries = YBool b) ∨ (∃ z, entries = YInt z)) →
       TestsList.__init__ load config_path tests_dir = Raise TypeError).
Proof.
  unfold TestsList.__init__, TestsList.__get_tests_list.
  split; [|split; [|split]].
  - by intros e ->.
  - intros config_data -> Hno. destruct config_data; try done. by destruct (Hno items).
  - intros items -> Hno. simpl. unfold contains in Hno.
    by destruct (getitem "tests" items).
  - intros items entries -> Hget Hentries. simpl. rewrite Hget. simpl.
    by destruct Hentries as [->|[[b ->]|[z ->]]].
Qed.

(** X5: when iterating the [tests] value yields strings only, loading
    succeeds and registers each with no exclusions.  That is so for a list
    of names, and also for a mapping, whose iteration yields its keys (the
    settings under them are dropped), and for a string, whose iteration
    yields its characters. *)
Theorem load_names_only (load : string → result value) (config_path tests_dir : string)
    (config_data entries : value) (names : list string) :
  load config_path = Ok config_data →
  py_getitem config_data "tests" = Ok entries →
  (entries = YSeq (map YStr names)
   ∨ (∃ items, entries = YMap items ∧ names = map fst items)
   ∨ (∃ s, entries = YStr s ∧ names = chars s)) →
  TestsList.__init__ load config_path tests_dir
  = Ok (TestsList.Build config_path tests_dir
          (set_all (map (λ n, (n, no_exclusions)) names) [])).
Proof.
  intros Hload Htests Hentries.
  assert (Hiter : py_iter entries = Ok (map YStr names)).
  { by destruct Hentries as [->|[(items & -> & ->)|(s & -> & ->)]]. }
  unfold TestsList.__init__, TestsList.__get_tests_list.
  rewrite Hload. simpl. rewrite Htests. simpl. rewrite Hiter. simpl.
  by rewrite fill_tests_list_data, mapM_shorthand.
Qed.

(** [{tests: {b_tests: {to_fix: [X.Y]}, a_tests: null}}] loads: two
    binaries, the [to_fix] list dropped. *)
Lemma load_names_only_witness :
  TestsList.__init__ (λ _, Ok tests_as_mapping) "tests.yml" "/out/tests"
  = Ok (TestsList.Build "tests.yml" "/out/tests"
          (set_all (map (λ n, (n, no_exclusions)) ["b_tests"; "a_tests"]) [])).
Proof.
  apply (load_names_only (λ _, Ok tests_as_mapping) "tests.yml" "/out/tests"
           tests_as_mapping
           (YMap [("b_tests", YMap [("to_fix", YSeq [YStr "X.Y"])]); ("a_tests", YNull)])
           ["b_tests"; "a_tests"]); [reflexivity|reflexivity|].
  right. left. eexists. split; reflexivity.
Defined.

(** ** The loaded registry *)

(** X6: [len] of the loaded object is the number of distinct binary names
    of the entries, which is the number of names [get_names] returns and at
    most the number of entries. *)
Theorem len_counts_distinct_names (load : string → result value)
    (config_path tests_dir : string) (config_data : value) (entries : list value)
    (w : world TestsList.t) :
  load config_path = Ok config_data →
  py_getitem config_data "tests" = Ok (YSeq entries) →
  TestsList.__init__ load config_path tests_dir = Ok (self w) →
  ∃ data names,
    mapM TestsList.__get_test_data entries = Ok data
    ∧ TestsList.__len__ w = (Ok (length (first_seen (map fst data))), w)
    ∧ TestsList.get_names w = (Ok names, w)
    ∧ length names = length (first_seen (map fst data))
    ∧ length (first_seen (map fst data)) ≤ length entries.
Proof.
  intros Hload Htests Hinit.
  destruct (init_data _ _ _ _ _ _ Hload Htests Hinit) as (data & Hdata & Hobj).
  assert (Hkeys : map fst (TestsList.tests (self w)) = first_seen (map fst data)).
  { rewrite Hobj. apply keys_set_all_empty. }
  exists data, (keys (TestsList.tests (self w))).
  split; [done|]. split.
  { unfold TestsList.__len__. run_M. unfold len. by rewrite <- Hkeys, length_map. }
  split; [done|]. split; [by rewrite keys_perm, Hkeys|].
  apply mapM_Forall2, Forall2_length in Hdata. rewrite Hdata, <- (length_map fst data).
  apply first_seen_length.
Qed.

Lemma len_counts_distinct_names_witness :
  ∃ data names,
    mapM TestsList.__get_test_data [YStr "b1"; YMap [("b2", YNull)]; YStr "b1"] = Ok data
    ∧ TestsList.__len__ (World two_binaries [])
      = (Ok (length (first_seen (map fst data))), World two_binaries [])
    ∧ TestsList.get_names (World two_binaries []) = (Ok names, World two_binaries [])
    ∧ length names = length (first_seen (map fst data))
    ∧ length (first_seen (map fst data))
      ≤ length [YStr "b1"; YMap [("b2", YNull)]; YStr "b1"].
Proof.
  apply (len_counts_distinct_names (λ _, Ok b1_b2_b1) "tests.yml" "/out/tests" b1_b2_b1
           [YStr "b1"; YMap [("b2", YNull)]; YStr "b1"] (World two_binaries []));
    vm_compute; reflexivity.
Defined.

(** X7: a document with an empty [tests] list loads; the object has no
    names, and [run_all] returns 0 without launching anything. *)
Theorem empty_tests_list (load : string → result value) (config_path tests_dir : string)
    (config_data : value) (os : launcher) (output_dir : option string) :
  load config_path = Ok config_data →
  py_getitem config_data "tests" = Ok (YSeq []) →
  ∃ obj,
    TestsList.__init__ load config_path tests_dir = Ok obj
    ∧ TestsList.__len__ (World obj []) = (Ok 0, World obj [])
    ∧ TestsList.get_names (World obj []) = (Ok [], World obj [])
    ∧ TestsList.run_all os output_dir (World obj []) = (Ok 0%Z, World obj []).
Proof.
  intros Hload Htests. eexists.
  unfold TestsList.__init__, TestsList.__get_tests_list.
  rewrite Hload. simpl. rewrite Htests. simpl. done.
Qed.

Lemma empty_tests_list_witness :
  ∃ obj,
    TestsList.__init__ (λ _, Ok (YMap [("tests", YSeq [])])) "tests.yml" "/out/tests" = Ok obj
    ∧ TestsList.__len__ (World obj []) = (Ok 0, World obj [])
    ∧ TestsList.get_names (World obj []) = (Ok [], World obj [])
    ∧ TestsList.run_all only_b1 None (World obj []) = (Ok 0%Z, World obj []).
Proof.
  apply (empty_tests_list (λ _, Ok (YMap [("tests", YSeq [])])) "tests.yml" "/out/tests"
           (YMap [("tests", YSeq [])]) only_b1 None); reflexivity.
Defined.

(** X8: no exclusion reaches a child.  Every registry that loads holds the
    starting record for every binary, so every child that [run] launches
    from it has the empty string in the filter slot and is passed no filter
    argument, whatever the names, the output directory and the launcher. *)
Theorem loaded_registry_never_filters (load : string → result value)
    (config_path tests_dir : string) (os : launcher) (binaries : list string)
    (output_dir : option string) (w : world TestsList.t) :
  TestsList.__init__ load config_path tests_dir = Ok (self w) →
  ∃ children,
    (TestsList.run os binaries output_dir w).2 = World (self w) (launched w ++ children)
    ∧ Forall (λ p, args p !! 1 = Some "" ∧ passes_filter p = false) children.
Proof.
  intros Hinit.
  destruct (run_prefix os binaries output_dir w (init_well_formed _ _ _ _ Hinit)) as [k Hk].
  eexists. split; [exact Hk|]. apply Forall_forall.
  intros p (b & -> & _)%list_elem_of_fmap.
  pose proof (child_of_loaded _ _ _ _ output_dir b Hinit) as Hslot. split; [done|].
  revert Hslot. unfold passes_filter, child_of. simpl. intros [= ->].
  by destruct output_dir.
Qed.

Lemma loaded_registry_never_filters_witness :
  ∃ children,
    (TestsList.run only_b1 ["b1"; "b2"] (Some "/out/results") (World two_binaries [])).2
    = World two_binaries ([] ++ children)
    ∧ Forall (λ p, args p !! 1 = Some "" ∧ passes_filter p = false) children.
Proof.
  apply (loaded_registry_never_filters (λ _, Ok b1_b2_b1) "tests.yml" "/out/tests" only_b1
           ["b1"; "b2"] (Some "/out/results") (World two_binaries [])).
  vm_compute. reflexivity.
Defined.

(** X9: [run_all] on a loaded registry, every launch yielding an exit code,
    never fails on an unknown name: it launches one child for each distinct
    binary name of the entries, and returns the sum of their exit codes. *)
Theorem run_all_launches_each_once (load : string → result value)
    (config_path tests_dir : string) (config_data : value) (entries : list value)
    (exit_code : list process → process → Z) (output_dir : option string)
    (w : world TestsList.t) :
  load config_path = Ok config_data →
  py_getitem config_data "tests" = Ok (YSeq entries) →
  TestsList.__init__ load config_path tests_dir = Ok (self w) →
  ∃ data children,
    mapM TestsList.__get_test_data entries = Ok data
    ∧ TestsList.run_all (λ h p, Ok (exit_code h p)) output_dir w
      = (Ok (total (exit_codes exit_code (launched w) children)),
         World (self w) (launched w ++ children))
    ∧ map (λ p, args p !! 0) children
      ≡ₚ map (λ n, Some (os_path_join tests_dir n)) (first_seen (map fst data)).
Proof.
  intros Hload Htests Hinit.
  destruct (init_data _ _ _ _ _ _ Hload Htests Hinit) as (data & Hdata & Hobj).
  assert (Hkeys : map fst (TestsList.tests (self w)) = first_seen (map fst data)).
  { rewrite Hobj. apply keys_set_all_empty. }
  exists data, (map (child_of (self w) output_dir) (keys (TestsList.tests (self w)))).
  split; [done|]. split.
  - unfold TestsList.run_all. run_M. apply run_children.
    + by eapply init_well_formed.
    + apply Forall_forall. intros b. apply contains_keys.
  - rewrite <- Hkeys, <- (keys_perm (TestsList.tests (self w))), map_map.
    rewrite Hobj. done.
Qed.

Lemma run_all_launches_each_once_witness :
  ∃ data children,
    mapM TestsList.__get_test_data [YStr "b1"; YMap [("b2", YNull)]; YStr "b1"] = Ok data
    ∧ TestsList.run_all (λ h p, Ok (exits_0_2 h p)) None (World two_binaries [])
      = (Ok (total (exit_codes exits_0_2 [] children)), World two_binaries ([] ++ children))
    ∧ map (λ p, args p !! 0) children
      ≡ₚ map (λ n, Some (os_path_join "/out/tests" n)) (first_seen (map fst data)).
Proof.
  apply (run_all_launches_each_once (λ _, Ok b1_b2_b1) "tests.yml" "/out/tests" b1_b2_b1
           [YStr "b1"; YMap [("b2", YNull)]; YStr "b1"] exits_0_2 None
           (World two_binaries [])); vm_compute; reflexivity.
Defined.

(** ** Launch failures *)

(** X10: when the launch of a binary raises, [run] raises that exception at
    once; the binaries before it have been launched, the ones after it are
    not, and no exit code is returned. *)
Theorem run_stops_at_failed_launch (os : launcher) (pre : list string) (b : string)
    (post : list string) (output_dir : option string) (codes : list Z) (e : exn)
    (w : world TestsList.t) :
  let child := child_of (self w) output_dir in
  well_formed (TestsList.tests (self w)) = true →
  Forall (λ b, contains b (TestsList.tests (self w)) = true) (pre ++ b :: post) →
  succeed os (launched w) (map child pre) codes →
  os (launched w ++ map child pre) (child b) = Raise e →
  TestsList.run os (pre ++ b :: post) output_dir w
  = (Raise e, World (self w) (launched w ++ map child pre ++ [child b])).
Proof.
  intros child Hwf Hall Hcodes He. unfold TestsList.run, mbind, M_bind.
  rewrite check_names_ok by done.
  apply (run_binaries_raise os pre b post output_dir 0%Z codes e w); try done.
  rewrite Forall_app in *. destruct Hall as [Hpre Hb].
  split; [done|]. apply Forall_cons in Hb as [Hb _]. by constructor.
Qed.

(** [run(["b1", "b2", "b1"])] when [b2] cannot be launched. *)
Lemma run_stops_at_failed_launch_witness :
  TestsList.run only_b1 (["b1"] ++ "b2" :: ["b1"]) None (World two_binaries [])
  = (Raise OSError,
     World two_binaries
       ([] ++ map (child_of two_binaries None) ["b1"] ++ [child_of two_binaries None "b2"])).
Proof.
  apply (run_stops_at_failed_launch only_b1 ["b1"] "b2" ["b1"] None [0%Z] OSError
           (World two_binaries [])).
  - reflexivity.
  - repeat constructor.
  - vm_compute. split; reflexivity.
  - reflexivity.
Defined.

(** ** Composition *)

(** X11: running two lists of known names one after the other launches the
    children that running their concatenation launches, and the two results
    add up to its result. *)
Theorem run_app (exit_code : list process → process → Z) (xs ys : list string)
    (output_dir : option string) (w : world TestsList.t) :
  well_formed (TestsList.tests (self w)) = true →
  Forall (λ b, contains b (TestsList.tests (self w)) = true) (xs ++ ys) →
  let os : launcher := λ h p, Ok (exit_code h p) in
  ∃ c1 c2 w1 w2,
    TestsList.run os xs output_dir w = (Ok c1, w1)
    ∧ TestsList.run os ys output_dir w1 = (Ok c2, w2)
    ∧ TestsList.run os (xs ++ ys) output_dir w = (Ok (c1 + c2)%Z, w2).
Proof.
  intros Hwf Hall os. pose proof Hall as Hboth.
  apply Forall_app in Hboth as [Hxs Hys].
  unfold os. rewrite !run_children by done. do 4 eexists.
  split; [done|]. rewrite run_children by done. split; [done|].
  simpl. by rewrite map_app, exit_codes_app, total_app, app_assoc.
Qed.

Lemma run_app_witness :
  ∃ c1 c2 w1 w2,
    TestsList.run (λ h p, Ok (exits_0_2 h p)) ["b1"] None (World two_binaries []) = (Ok c1, w1)
    ∧ TestsList.run (λ h p, Ok (exits_0_2 h p)) ["b2"; "b2"] None w1 = (Ok c2, w2)
    ∧ TestsList.run (λ h p, Ok (exits_0_2 h p)) (["b1"] ++ ["b2"; "b2"]) None
        (World two_binaries [])
      = (Ok (c1 + c2)%Z, w2).
Proof.
  apply (run_app exits_0_2 ["b1"] ["b2"; "b2"] None (World two_binaries []));
    [reflexivity|repeat constructor].
Defined.

(** ** The meaning of the suite's result *)

(** X12: when no child exits with a negative code, the result of [run] is 0
    exactly when every child exited 0, and no child's code exceeds it. *)
Theorem run_zero_iff_all_zero (exit_code : list process → process → Z)
    (binaries : list string) (output_dir : option string) (w : world TestsList.t) :
  (∀ h p, (0 ≤ exit_code h p)%Z) →
  well_formed (TestsList.tests (self w)) = true →
  Forall (λ b, contains b (TestsList.tests (self w)) = true) binaries →
  let codes := exit_codes exit_code (launched w)
                 (map (child_of (self w) output_dir) binaries) in
  ∃ c,
    (TestsList.run (λ h p, Ok (exit_code h p)) binaries output_dir w).1 = Ok c
    ∧ (c = 0%Z ↔ Forall (λ x, x = 0%Z) codes)
    ∧ Forall (λ x, (0 ≤ x ≤ c)%Z) codes.
Proof.
  intros Hpos Hwf Hall codes. rewrite run_children by done. fold codes.
  exists (total codes). split; [done|].
  assert (Hcodes : Forall (λ x, (0 ≤ x)%Z) codes).
  { unfold codes. generalize (launched w).
    induction (map (child_of (self w) output_dir) binaries) as [|p ps IH]; intros h;
      simpl; constructor; [apply Hpos|apply IH]. }
  clearbody codes. induction Hcodes as [|x codes Hx Hcodes [IH1 IH2]]; simpl.
  - split; [done|constructor].
  - assert (0 ≤ total codes)%Z.
    { clear -Hcodes. induction Hcodes; simpl; lia. }
    split.
    + rewrite Forall_cons, <- IH1. lia.
    + constructor; [lia|]. eapply Forall_impl; [exact IH2|]. simpl. lia.
Qed.

Lemma run_zero_iff_all_zero_witness :
  ∃ c,
    (TestsList.run (λ h p, Ok (exits_0_2 h p)) ["b1"; "b2"] None (World two_binaries [])).1
    = Ok c
    ∧ (c = 0%Z ↔ Forall (λ x, x = 0%Z)
                   (exit_codes exits_0_2 [] (map (child_of two_binaries None) ["b1"; "b2"])))
    ∧ Forall (λ x, (0 ≤ x ≤ c)%Z)
        (exit_codes exits_0_2 [] (map (child_of two_binaries None) ["b1"; "b2"])).
Proof.
  apply (run_zero_iff_all_zero exits_0_2 ["b1"; "b2"] None (World two_binaries [])).
  - intros h p. unfold exits_0_2. repeat case_match; lia.
  - reflexivity.
  - repeat constructor.
Defined.

(** ** [TestBinary.run] *)

(** X13: whatever [excluded_tests] is, [TestBinary.run] either launches
    exactly one child (the binary path first, then a filter slot, then the
    output slot) and returns what the launch yields, unchanged, or raises
    [TypeError] before launching anything. *)
Theorem test_binary_run_outcomes {S : Type} (os : launcher) (tb : TestBinary.t)
    (excluded_tests : value) (output : option string) (w : world S) :
  let gtest_output :=
    match output with
    | Some path => "--gtest_output=" +:+ TestBinary.output_format tb +:+ ":" +:+ path
    | None => ""
    end in
  let stdout := match output with Some _ => DevNull | None => Inherit end in
  (∃ gtest_filter,
     let p := Process [TestBinary.binary_path tb; gtest_filter; gtest_output] stdout in
     TestBinary.run os tb excluded_tests output w
     = (os (launched w) p, World (self w) (launched w ++ [p])))
  ∨ TestBinary.run os tb excluded_tests output w = (Raise TypeError, w).
Proof.
  intros gtest_output stdout.
  destruct excluded_tests as [|b|z|s|l|items];
    [left; by exists ""|right; reflexivity|right; reflexivity|..];
    unfold TestBinary.run, TestBinary.__format_excluded_tests;
    unfold mbind, M_bind, lift, mret, M_ret, result_bind; cbn [py_len];
    (match goal with |- context [(0 <? ?n)%nat] => destruct (0 <? n)%nat end;
     [|left; by exists ""]);
    match goal with
    | |- context [py_join ":" ?v] =>
        destruct (py_join_cases ":" v) as [[joined ->]| ->];
        [left; by eexists|by right]
    end.
Qed.

(** ** [run_only] *)

(** X14: [run_only] of a known binary launches that one child and returns
    what its launch yields: the exit code unchanged, or the exception; of an
    unknown name it raises without launching. *)
Theorem run_only_outcomes (os : launcher) (binary_name : string)
    (output_dir : option string) (w : world TestsList.t) :
  well_formed (TestsList.tests (self w)) = true →
  let child := child_of (self w) output_dir binary_name in
  (contains binary_name (TestsList.tests (self w)) = true →
   TestsList.run_only os binary_name output_dir w
   = (os (launched w) child, World (self w) (launched w ++ [child])))
  ∧ (contains binary_name (TestsList.tests (self w)) = false →
     TestsList.run_only os binary_name output_dir w
     = (Raise (not_found binary_name (TestsList.config_path (self w))), w)).
Proof.
  intros Hwf child. split; intros Hb.
  - unfold TestsList.run_only, TestsList.run, mbind, M_bind.
    rewrite check_names_ok by by repeat constructor.
    simpl. unfold mbind, M_bind. rewrite run_one_child by done. fold child.
    by destruct (os (launched w) child).
  - unfold TestsList.run_only, TestsList.run, mbind, M_bind.
    by rewrite (check_names_missing [] binary_name []).
Qed.

Lemma run_only_outcomes_witness :
  (contains "b2" (TestsList.tests two_binaries) = true →
   TestsList.run_only only_b1 "b2" None (World two_binaries [])
   = (only_b1 [] (child_of two_binaries None "b2"),
      World two_binaries ([] ++ [child_of two_binaries None "b2"])))
  ∧ (contains "b2" (TestsList.tests two_binaries) = false →
     TestsList.run_only only_b1 "b2" None (World two_binaries [])
     = (Raise (not_found "b2" "tests.yml"), World two_binaries [])).
Proof.
  exact (run_only_outcomes only_b1 "b2" None (World two_binaries []) eq_refl).
Defined.

(** ** Paths *)

(** X15: a binary name that starts with a slash is launched as it stands: the
    tests directory does not enter its path. *)
Theorem run_absolute_name (os : launcher) (binary_name : string)
    (output_dir : option string) (w : world TestsList.t) :
  well_formed (TestsList.tests (self w)) = true →
  contains binary_name (TestsList.tests (self w)) = true →
  String.prefix "/" binary_name = true →
  ∃ p, TestsList.__run os binary_name output_dir w
       = (os (launched w) p, World (self w) (launched w ++ [p]))
       ∧ args p !! 0 = Some binary_name.
Proof.
  intros Hwf Hb Habs. eexists. split; [by apply run_one_child|].
  simpl. unfold os_path_join. by rewrite Habs.
Qed.

Lemma run_absolute_name_witness :
  ∃ p, TestsList.__run only_b1 "/bin/true" None
         (World (TestsList.Build "tests.yml" "/out/tests" [("/bin/true", no_exclusions)]) [])
       = (only_b1 [] p,
          World (TestsList.Build "tests.yml" "/out/tests" [("/bin/true", no_exclusions)])
                ([] ++ [p]))
       ∧ args p !! 0 = Some "/bin/true".
Proof.
  apply (run_absolute_name only_b1 "/bin/true" None
           (World (TestsList.Build "tests.yml" "/out/tests" [("/bin/true", no_exclusions)]) []));
    reflexivity.
Defined.

(** X16: the results path is the output directory, then at most one slash,
    then [results_<name>.xml], whatever the name; there is a path exactly
    when there is an output directory. *)
Theorem output_path_shape (binary_name : string) (output_dir : option string) :
  match TestsList.__get_output_path binary_name output_dir with
  | None => output_dir = None
  | Some path =>
      ∃ dir sep, output_dir = Some dir ∧ (sep = "" ∨ sep = "/")
                 ∧ path = dir +:+ sep +:+ "results_" +:+ binary_name +:+ ".xml"
                 ∧ String.prefix dir path = true
  end.
Proof.
  destruct output_dir as [dir|]; [|done]. simpl. unfold os_path_join. simpl.
  destruct (String.eqb dir "" || endswith_slash dir).
  - exists dir, "". split; [done|]. split; [by left|]. split; [done|]. apply prefix_app.
  - exists dir, "/". split; [done|]. split; [by right|]. split; [done|]. apply prefix_app.
Qed.

(** ** The command line *)

(** X17: [parse_args] returns a namespace exactly when [run] comes with a
    tests directory, the configuration is a file and each directory given
    is a directory, all after [abspath]; the namespace returned is the one
    given with its three paths made absolute. *)
Theorem parse_args_accepts (abspath : string → string) (isfile isdir : string → bool)
    (args args' : Cli.Namespace) :
  Cli.parse_args abspath isfile isdir args = Cli.Parsed args'
  ↔ (Cli.command args = Command.RUN → Cli.tests_dir args ≠ None)
    ∧ isfile (abspath (Cli.config args)) = true
    ∧ (∀ dir, Cli.tests_dir args = Some dir → isdir (abspath dir) = true)
    ∧ (∀ dir, Cli.output_dir args = Some dir → isdir (abspath dir) = true)
    ∧ args' = absolutized abspath args.
Proof. apply parse_args_spec. Qed.

(** X18: [list] prints the names of the loaded registry, joined by newlines,
    in one [print], launches nothing and exits with 0. *)
Theorem main_list (abspath : string → string) (isfile isdir : string → bool)
    (load : string → result value) (os : launcher) (argv args : Cli.Namespace)
    (tests : dict value) :
  Cli.parse_args abspath isfile isdir argv = Cli.Parsed args →
  Cli.command args = Command.LIST →
  TestsList.__get_tests_list load (Cli.config args) = Ok tests →
  Cli.main abspath isfile isdir load os argv
  = Cli.Trace (Cli.Exit 0) [String.concat Cli.newline (keys tests)] [].
Proof.
  intros Hparse Hcmd Hload. unfold Cli.main, TestsList.__init__.
  rewrite Hparse, Hload. simpl. by rewrite Hcmd.
Qed.

Lemma main_list_witness :
  Cli.main abspath isfile isdir (λ _, Ok abc)
    (λ h p, Ok (exits_0_2 h p)) argv_list
  = Cli.Trace (Cli.Exit 0)
      [String.concat Cli.newline
         (keys [("a", no_exclusions); ("b", no_exclusions); ("c", no_exclusions)])] [].
Proof.
  apply (main_list abspath isfile isdir (λ _, Ok abc)
           (λ h p, Ok (exits_0_2 h p)) argv_list argv_list);
    vm_compute; reflexivity.
Defined.

(** X19: [run] ends as the method it calls on the loaded object ends: [run]
    on the names of [--binary] when the option is given, [run_all]
    otherwise; the exit status is the method's result.  With [--binary] and
    no name after it, nothing is launched and the status is 0. *)
Theorem main_run (abspath : string → string) (isfile isdir : string → bool)
    (load : string → result value) (os : launcher) (argv args : Cli.Namespace)
    (tests : dict value) :
  Cli.parse_args abspath isfile isdir argv = Cli.Parsed args →
  Cli.command args = Command.RUN →
  TestsList.__get_tests_list load (Cli.config args) = Ok tests →
  ∃ dir,
    Cli.tests_dir args = Some dir
    ∧ let w := World (TestsList.Build (Cli.config args) dir tests) [] in
      Cli.main abspath isfile isdir load os argv
      = Cli.finish
          match Cli.binary args with
          | Some names => TestsList.run os names (Cli.output_dir args) w
          | None => TestsList.run_all os (Cli.output_dir args) w
          end
      ∧ (Cli.binary args = Some [] →
         Cli.main abspath isfile isdir load os argv = Cli.Trace (Cli.Exit 0) [] []).
Proof.
  intros Hparse Hcmd Hload.
  pose proof Hparse as Hspec. apply parse_args_spec in Hspec as (Hdir & _ & _ & _ & Hargs).
  assert (Hargv : Cli.command argv = Command.RUN) by (by rewrite Hargs in Hcmd).
  destruct (Cli.tests_dir argv) as [dir0|] eqn:Hdir0; [|by destruct (Hdir Hargv)].
  exists (abspath dir0).
  assert (Htd : Cli.tests_dir args = Some (abspath dir0)).
  { rewrite Hargs. simpl. by rewrite Hdir0. }
  split; [done|].
  assert (Hmain : Cli.main abspath isfile isdir load os argv
                  = Cli.finish
                      match Cli.binary args with
                      | Some names =>
                          TestsList.run os names (Cli.output_dir args)
                            (World (TestsList.Build (Cli.config args) (abspath dir0) tests) [])
                      | None =>
                          TestsList.run_all os (Cli.output_dir args)
                            (World (TestsList.Build (Cli.config args) (abspath dir0) tests) [])
                      end).
  { unfold Cli.main, TestsList.__init__. rewrite Hparse, Hload, Htd. simpl.
    rewrite Hcmd. simpl. by destruct (Cli.binary args). }
  split; [done|]. intros Hnone. by rewrite Hmain, Hnone.
Qed.

Lemma main_run_witness :
  ∃ dir,
    Cli.tests_dir argv_run_none = Some dir
    ∧ let w := World (TestsList.Build (Cli.config argv_run_none) dir
                        (TestsList.tests two_binaries)) [] in
      Cli.main abspath isfile isdir (λ _, Ok b1_b2_b1)
        only_b1 argv_run_none
      = Cli.finish
          match Cli.binary argv_run_none with
          | Some names =>
              TestsList.run only_b1 names (Cli.output_dir argv_run_none) w
          | None => TestsList.run_all only_b1 (Cli.output_dir argv_run_none) w
          end
      ∧ (Cli.binary argv_run_none = Some [] →
         Cli.main abspath isfile isdir
           (λ _, Ok b1_b2_b1) only_b1 argv_run_none
         = Cli.Trace (Cli.Exit 0) [] []).
Proof.
  apply (main_run abspath isfile isdir
           (λ _, Ok b1_b2_b1) only_b1 argv_run_none argv_run_none
           (TestsList.tests two_binaries)); vm_compute; reflexivity.
Defined.
